(** * Amphora driver tasks (octavia/controller/worker/v2/tasks/amphora_driver_tasks.py)

    A shallow embedding of the taskflow tasks that drive an amphora through
    its driver, and of the [AmpRetry] retry controller.

    The tasks are stateful: they read and update the entity store through the
    repositories, call the amphora driver and write to the log.  They are
    embedded in a state-and-exception monad over a [World] holding the three
    entity tables and a trace of every repository access, driver call and log
    record, so that "no driver call", "no lookup" and "no status update" are
    statements about the trace and the tables. *)

From Stdlib Require Import ZArith.
From stdpp Require Import gmap strings list fin_maps.

Local Open Scope string_scope.
Local Open Scope Z_scope.

(** ** Constants

    Modelled from the spec: octavia.common.constants is not part of this
    file; the status values are those of the data model (ALLOCATED, ERROR) and
    the flavor key is the one the round trip of the agent configuration
    names. *)

Module constants.
Definition AMPHORA_ALLOCATED : string := "ALLOCATED".
Definition ERROR : string := "ERROR".
Definition LOADBALANCER_TOPOLOGY : string := "loadbalancer_topology".
End constants.

(** ** Exceptions

    Every exception of the model is an instance of Python's [Exception], so a
    bare [except Exception] handler catches all of them.  The classes of
    [driver_except] that the tasks name are told apart; none of them derives
    from another, hence [isinstance] is equality of classes. *)

Inductive exn_class :=
  | AmpConnectionRetry
  | TimeOutException
  | AmpDriverNotImplementedError
  | AttributeError
  | IndexError
  | OtherException.

#[global] Instance exn_class_eq_dec : EqDecision exn_class.
Proof. solve_decision. Defined.

Record exn := Exn { exn_cls : exn_class; exn_str : string }.

Definition isinstance (e : exn) (c : exn_class) : bool :=
  bool_decide (exn_cls e = c).

Inductive outcome (A : Type) :=
  | Returned (a : A)
  | Raised (e : exn).
Arguments Returned {A} a.
Arguments Raised {A} e.

(** ** Process-wide configuration (oslo.config [CONF]) *)

Record haproxy_amphora_opts := {
  connection_max_retries : Z;
  active_connection_max_retries : Z;
  active_connection_rety_interval : Z }.

Record controller_worker_opts := {
  loadbalancer_topology : string }.

Record Config := {
  haproxy_amphora : haproxy_amphora_opts;
  controller_worker : controller_worker_opts }.

(** ** Python sequence indexing: [l[i]] with negative indices counted from
    the end, [IndexError] out of range. *)

Definition py_index {A} (l : list A) (i : Z) : option A :=
  if 0 <=? i then l !! Z.to_nat i
  else if 0 <=? i + Z.of_nat (length l) then l !! Z.to_nat (i + Z.of_nat (length l))
  else None.

(** ** The retry controller *)

Module retry.
Inductive decision := RETRY | REVERT | REVERT_ALL.
End retry.

Module failure.
(** A taskflow [Failure]; [_exc_info] is [None] once the failure has been
    restored from the persistence backend, otherwise it carries the
    exception value ([_exc_info[1]]). *)
Record Failure := { _exc_info : option exn }.
End failure.

(** One entry of the history: the value the controller returned for the
    attempt and the failures of that attempt, task name -> failure or None,
    in iteration order. *)
Definition history_entry : Type :=
  Z * list (string * option failure.Failure).

Module AmpRetry.

(** The body of [for task_name, ex_info in last_errors.items()]. *)
Fixpoint on_failure_loop (history_len max_retry_attempt : Z)
    (items : list (string * option failure.Failure)) : retry.decision :=
  match items with
  | [] => retry.REVERT_ALL
  | (task_name, ex_info) :: rest =>
      if history_len <=? max_retry_attempt then
        match ex_info with
        | None => retry.RETRY
        | Some f =>
            match failure._exc_info f with
            | None => retry.RETRY
            | Some excp =>
                if isinstance excp AmpConnectionRetry then retry.RETRY
                else on_failure_loop history_len max_retry_attempt rest
            end
        end
      else on_failure_loop history_len max_retry_attempt rest
  end.

Definition on_failure (CONF : Config) (history : list history_entry)
    : outcome retry.decision :=
  match last history with
  | None => Raised (Exn IndexError "list index out of range")
  | Some (_, last_errors) =>
      let max_retry_attempt := connection_max_retries (haproxy_amphora CONF) in
      Returned (on_failure_loop (Z.of_nat (length history))
                                max_retry_attempt last_errors)
  end.

End AmpRetry.

(** ** Data model

    A row is what the store holds under an identifier; a data-model object
    ([Amphora.t], [Listener.t], [LoadBalancer.t]) is the detached snapshot a
    repository [get] builds from the rows.  [None] in an [option] field or
    argument is Python's [None]. *)

Module AmphoraRow.
Record t := mk {
  compute_id : option string;
  status : string;
  vrrp_interface : option string;
  load_balancer_id : option string }.
End AmphoraRow.

Module ListenerRow.
Record t := mk {
  provisioning_status : string;
  load_balancer_id : string }.
End ListenerRow.

Module LoadBalancerRow.
Record t := mk {
  provisioning_status : string;
  topology : string }.
End LoadBalancerRow.

Module Amphora.
Record t := mk {
  id : string;
  compute_id : option string;
  status : string;
  vrrp_interface : option string;
  load_balancer_id : option string }.

Definition of_row (i : string) (r : AmphoraRow.t) : t :=
  mk i (AmphoraRow.compute_id r) (AmphoraRow.status r)
     (AmphoraRow.vrrp_interface r) (AmphoraRow.load_balancer_id r).
End Amphora.

Module Listener.
Record t := mk {
  id : string;
  provisioning_status : string }.

Definition of_row (i : string) (r : ListenerRow.t) : t :=
  mk i (ListenerRow.provisioning_status r).
End Listener.

Module LoadBalancer.
(** [amphorae] is a Python list: [AmphoraUpdateVRRPInterface] assigns to it
    whatever [amphora_repo.get] returned, which may be [None]. *)
Record t := mk {
  id : string;
  provisioning_status : string;
  topology : string;
  listeners : list Listener.t;
  amphorae : list (option Amphora.t) }.

Definition set_amphorae (amps : list (option Amphora.t)) (lb : t) : t :=
  mk (id lb) (provisioning_status lb) (topology lb) (listeners lb) amps.
End LoadBalancer.

(** The serialized inputs the flow hands to the tasks.  An amphora travels as
    the dict of its data model ([Amphora.to_dict()]), which always has the
    [id] key; a load balancer and a listener travel as provider dicts, of
    which the tasks read the identifier only. *)
Record LoadBalancerDict := { loadbalancer_id : string }.
Record ListenerDict := { listener_id : string }.

(** [{CONN_MAX_RETRIES: ..., CONN_RETRY_INTERVAL: ...}] *)
Record TimeoutDict := { conn_max_retries : Z; conn_retry_interval : Z }.

(** ** The world: entity store and trace *)

Inductive amphora_change :=
  | SetStatus (s : string)
  | SetVrrpInterface (i : option string).

Inductive driver_call :=
  | UpdateAmphoraListeners (lb : option LoadBalancer.t) (amp : option Amphora.t)
                           (timeout_dict : option TimeoutDict)
  | Start (lb : LoadBalancer.t) (amp : option Amphora.t)
  | GetInfo (amp : option Amphora.t) (raise_retry_exception : bool)
  | GetVrrpInterface (amp : Amphora.t) (timeout_dict : TimeoutDict)
  | UpdateAmphoraAgentConfig (amp : option Amphora.t) (agent_config : string).

Inductive log_level := DEBUG | WARNING | LOG_ERROR.

Inductive event :=
  | AmphoraGet (i : string)
  | AmphoraUpdate (i : string) (changes : list amphora_change)
  | ListenerGet (i : string)
  | ListenerUpdate (i : string) (provisioning_status : string)
  | LoadBalancerGet (i : string)
  | LoadBalancerUpdate (i : string) (provisioning_status : string)
  | DriverCall (c : driver_call)
  | Log (level : log_level) (msg : string) (args : list string).

Record World := mkWorld {
  amphora_tbl : gmap string AmphoraRow.t;
  listener_tbl : gmap string ListenerRow.t;
  loadbalancer_tbl : gmap string LoadBalancerRow.t;
  trace : list event }.

Definition emit (ev : event) (w : World) : World :=
  mkWorld (amphora_tbl w) (listener_tbl w) (loadbalancer_tbl w)
          (trace w ++ [ev]).

(** ** The task monad: state and exceptions *)

Definition M (A : Type) : Type := World -> outcome A * World.

Definition ret {A} (a : A) : M A := fun w => (Returned a, w).

Definition raise {A} (e : exn) : M A := fun w => (Raised e, w).

Definition bind {A B} (m : M A) (k : A -> M B) : M B :=
  fun w =>
    match m w with
    | (Returned a, w') => k a w'
    | (Raised e, w') => (Raised e, w')
    end.

Declare Scope task_scope.
Delimit Scope task_scope with task.
Notation "x <- m ;; k" := (bind m (fun x => k))
  (at level 100, m at next level, right associativity) : task_scope.
Notation "m ;; k" := (bind m (fun _ => k))
  (at level 100, right associativity) : task_scope.
Local Open Scope task_scope.

(** [try: body except Exception as e: handler e] *)
Definition try_except {A} (body : M A) (handler : exn -> M A) : M A :=
  fun w =>
    match body w with
    | (Returned a, w') => (Returned a, w')
    | (Raised e, w') => handler e w'
    end.

(** [try: body except cls: handler] ; any other exception passes through. *)
Definition try_except_class {A} (cls : exn_class) (body : M A)
    (handler : exn -> M A) : M A :=
  fun w =>
    match body w with
    | (Returned a, w') => (Returned a, w')
    | (Raised e, w') =>
        if isinstance e cls then handler e w' else (Raised e, w')
    end.

Definition tell (ev : event) : M unit := fun w => (Returned tt, emit ev w).

Definition LOG (level : log_level) (msg : string) (args : list string) : M unit :=
  tell (Log level msg args).

(** [for x in l: acc.append(f x)] *)
Fixpoint mapM {A B} (f : A -> M B) (l : list A) : M (list B) :=
  match l with
  | [] => ret []
  | x :: rest => y <- f x ;; ys <- mapM f rest ;; ret (y :: ys)
  end.

(** [for x in l: f x] *)
Fixpoint forM_ {A} (f : A -> M unit) (l : list A) : M unit :=
  match l with
  | [] => ret tt
  | x :: rest => f x ;; forM_ f rest
  end.

(** [l[i]] in the monad. *)
Definition getitem {A} (l : list A) (i : Z) : M A :=
  match py_index l i with
  | Some x => ret x
  | None => raise (Exn IndexError "list index out of range")
  end.

(** Attribute access on a value that may be [None]. *)
Definition deref {A} (o : option A) : M A :=
  match o with
  | Some x => ret x
  | None => raise (Exn AttributeError "'NoneType' object has no attribute")
  end.

(** ** Repositories (octavia.db.repositories) *)

Definition set_amphora_tbl (t : gmap string AmphoraRow.t) (w : World) : World :=
  mkWorld t (listener_tbl w) (loadbalancer_tbl w) (trace w).

Definition set_listener_tbl (t : gmap string ListenerRow.t) (w : World) : World :=
  mkWorld (amphora_tbl w) t (loadbalancer_tbl w) (trace w).

Definition set_loadbalancer_tbl (t : gmap string LoadBalancerRow.t) (w : World)
    : World :=
  mkWorld (amphora_tbl w) (listener_tbl w) t (trace w).

(** The snapshot of one amphora, [None] when the store has no such row. *)
Definition lookup_amphora (w : World) (i : string) : option Amphora.t :=
  Amphora.of_row i <$> amphora_tbl w !! i.

(** The amphorae and listeners of a load balancer are the rows that point to
    it; identifiers are keys of the table, hence pairwise distinct. *)
Definition amphorae_of (w : World) (lb_id : string) : list (option Amphora.t) :=
  (fun kr => Some (Amphora.of_row kr.1 kr.2)) <$>
    filter (fun kr => AmphoraRow.load_balancer_id kr.2 = Some lb_id)
           (map_to_list (amphora_tbl w)).

Definition listeners_of (w : World) (lb_id : string) : list Listener.t :=
  (fun kr => Listener.of_row kr.1 kr.2) <$>
    filter (fun kr => ListenerRow.load_balancer_id kr.2 = lb_id)
           (map_to_list (listener_tbl w)).

Definition lookup_loadbalancer (w : World) (i : string) : option LoadBalancer.t :=
  (fun r => LoadBalancer.mk i (LoadBalancerRow.provisioning_status r)
              (LoadBalancerRow.topology r) (listeners_of w i) (amphorae_of w i))
    <$> loadbalancer_tbl w !! i.

Definition apply_change (r : AmphoraRow.t) (c : amphora_change) : AmphoraRow.t :=
  match c with
  | SetStatus s =>
      AmphoraRow.mk (AmphoraRow.compute_id r) s (AmphoraRow.vrrp_interface r)
                    (AmphoraRow.load_balancer_id r)
  | SetVrrpInterface i =>
      AmphoraRow.mk (AmphoraRow.compute_id r) (AmphoraRow.status r) i
                    (AmphoraRow.load_balancer_id r)
  end.

(** Modelled from the spec: the Entity Store interface of
    octavia.db.repositories, [get(id) -> EntitySnapshot | NotFound] and
    [update(id, fieldChanges) -> void] with independent field updates.  A
    missing row makes [get] answer [None] (the tasks test the answer for
    truth) and makes [update] change nothing. *)
Module amphora_repo.
Definition get (i : string) : M (option Amphora.t) :=
  fun w => (Returned (lookup_amphora w i), emit (AmphoraGet i) w).

Definition update (i : string) (changes : list amphora_change) : M unit :=
  fun w =>
    (Returned tt,
     emit (AmphoraUpdate i changes)
          (set_amphora_tbl
             (alter (fun r => foldl apply_change r changes) i (amphora_tbl w))
             w)).
End amphora_repo.

Module listener_repo.
Definition get (i : string) : M (option Listener.t) :=
  fun w => (Returned (Listener.of_row i <$> listener_tbl w !! i),
            emit (ListenerGet i) w).

Definition update (i : string) (provisioning_status : string) : M unit :=
  fun w =>
    (Returned tt,
     emit (ListenerUpdate i provisioning_status)
          (set_listener_tbl
             (alter (fun r => ListenerRow.mk provisioning_status
                                (ListenerRow.load_balancer_id r))
                    i (listener_tbl w))
             w)).
End listener_repo.

Module loadbalancer_repo.
Definition get (i : string) : M (option LoadBalancer.t) :=
  fun w => (Returned (lookup_loadbalancer w i), emit (LoadBalancerGet i) w).

Definition update (i : string) (provisioning_status : string) : M unit :=
  fun w =>
    (Returned tt,
     emit (LoadBalancerUpdate i provisioning_status)
          (set_loadbalancer_tbl
             (alter (fun r => LoadBalancerRow.mk provisioning_status
                                (LoadBalancerRow.topology r))
                    i (loadbalancer_tbl w))
             w)).
End loadbalancer_repo.

(** Modelled from the spec: the Status Updater
    (octavia.controller.worker.task_utils.TaskUtils), which applies the
    transition to ERROR to one entity and is safe on an entity that is already
    in ERROR. *)
Module task_utils.
Definition mark_amphora_status_error (amphora_id : string) : M unit :=
  amphora_repo.update amphora_id [SetStatus constants.ERROR].

Definition mark_listener_prov_status_error (listener_id : string) : M unit :=
  listener_repo.update listener_id constants.ERROR.

Definition mark_loadbalancer_prov_status_error (loadbalancer_id : string)
    : M unit :=
  loadbalancer_repo.update loadbalancer_id constants.ERROR.
End task_utils.

(** ** The amphora driver

    The driver is an external collaborator: each operation answers with a
    value or raises, as a function of the snapshots it is handed.  It talks
    to the appliance and does not write to the entity store. *)

Record AmphoraDriver := {
  update_amphora_listeners :
    option LoadBalancer.t -> option Amphora.t -> option TimeoutDict -> outcome unit;
  start : LoadBalancer.t -> option Amphora.t -> outcome unit;
  get_info : option Amphora.t -> bool -> outcome string;
  get_vrrp_interface : Amphora.t -> TimeoutDict -> outcome (option string);
  update_amphora_agent_config : option Amphora.t -> string -> outcome unit }.

(** What a task instance reaches through [self] and the module globals: the
    configuration, the loaded driver and the agent configuration templater
    ([AgentJinjaTemplater.build_agent_config]). *)
Record Env := {
  CONF : Config;
  amphora_driver : AmphoraDriver;
  build_agent_config : string -> string -> string }.

Definition call_driver {A} (c : driver_call) (answer : outcome A) : M A :=
  fun w => (answer, emit (DriverCall c) w).

(** The outcome a revert receives: the value [execute] returned, or the
    [Failure] of the task's own [execute]. *)
Inductive task_result (A : Type) :=
  | Result (a : A)
  | Failed (f : failure.Failure).
Arguments Result {A} a.
Arguments Failed {A} f.

(** Truth value of a Python list. *)
Definition truthy {A} (l : list A) : bool :=
  match l with [] => false | _ :: _ => true end.

(** ** The tasks *)

Module AmpListenersUpdate.
(** Task to update the listeners on one amphora.  The whole body sits in
    one [try]; the handler marks [amphorae[amphora_index]] ERROR. *)
Definition execute (env : Env) (loadbalancer : LoadBalancerDict)
    (amphora_index : Z) (amphorae : list Amphora.t)
    (timeout_dict : option TimeoutDict) : M unit :=
  try_except
    (db_amphorae <- mapM (fun amp => amphora_repo.get (Amphora.id amp)) amphorae ;;
     db_lb <- loadbalancer_repo.get (loadbalancer_id loadbalancer) ;;
     db_amp <- getitem db_amphorae amphora_index ;;
     call_driver (UpdateAmphoraListeners db_lb db_amp timeout_dict)
       (update_amphora_listeners (amphora_driver env) db_lb db_amp timeout_dict))
    (fun e =>
       amp <- getitem amphorae amphora_index ;;
       let amphora_id := Amphora.id amp in
       LOG LOG_ERROR
         ("Failed to update listeners on amphora %s. Skipping " ++
          "this amphora as it is failing to update due to: %s")
         [amphora_id; exn_str e] ;;
       amphora_repo.update amphora_id [SetStatus constants.ERROR]).
End AmpListenersUpdate.

Module ListenersStart.
(** Task to start all listeners on the vip. *)
Definition execute (env : Env) (loadbalancer : LoadBalancerDict)
    (amphora : option Amphora.t) : M unit :=
  db_lb <- loadbalancer_repo.get (loadbalancer_id loadbalancer) ;;
  lb <- deref db_lb ;;
  if truthy (LoadBalancer.listeners lb) then
    db_amp <- match amphora with
              | Some a => amphora_repo.get (Amphora.id a)
              | None => ret None
              end ;;
    call_driver (Start lb db_amp) (start (amphora_driver env) lb db_amp) ;;
    LOG DEBUG "Started the listeners on the vip" []
  else ret tt.

Definition revert (loadbalancer : LoadBalancerDict) : M unit :=
  LOG WARNING "Reverting listeners starts." [] ;;
  db_lb <- loadbalancer_repo.get (loadbalancer_id loadbalancer) ;;
  lb <- deref db_lb ;;
  forM_ (fun listener =>
           task_utils.mark_listener_prov_status_error (Listener.id listener))
        (LoadBalancer.listeners lb).
End ListenersStart.

Module ListenerDelete.
(** [revert(self, listener, *args, **kwargs)]: the result of [execute]
    arrives among the keyword arguments and is not looked at. *)
Definition revert {A} (result : task_result A) (listener : ListenerDict)
    : M unit :=
  LOG WARNING "Reverting listener delete." [] ;;
  task_utils.mark_listener_prov_status_error (listener_id listener).
End ListenerDelete.

Module AmphoraFinalize.
Definition revert {A} (result : task_result A) (amphora : Amphora.t) : M unit :=
  match result with
  | Failed _ => ret tt
  | Result _ =>
      LOG WARNING "Reverting amphora finalize." [] ;;
      task_utils.mark_amphora_status_error (Amphora.id amphora)
  end.
End AmphoraFinalize.

Module AmphoraPostNetworkPlug.
Definition revert {A} (result : task_result A) (amphora : Amphora.t) : M unit :=
  match result with
  | Failed _ => ret tt
  | Result _ =>
      LOG WARNING "Reverting post network plug." [] ;;
      task_utils.mark_amphora_status_error (Amphora.id amphora)
  end.
End AmphoraPostNetworkPlug.

Module AmphoraPostVIPPlug.
Definition revert {A} (result : task_result A) (amphora : Amphora.t)
    (loadbalancer : LoadBalancerDict) : M unit :=
  match result with
  | Failed _ => ret tt
  | Result _ =>
      LOG WARNING "Reverting post vip plug." [] ;;
      task_utils.mark_amphora_status_error (Amphora.id amphora) ;;
      task_utils.mark_loadbalancer_prov_status_error
        (loadbalancer_id loadbalancer)
  end.
End AmphoraPostVIPPlug.

Module AmphoraUpdateVRRPInterface.
(** The loop over [filter(lambda amp: amp.status == AMPHORA_ALLOCATED,
    db_lb.amphorae)], with the list [amps] it appends to.  The [try] holds
    the driver call only; [None] from it stands for [continue]. *)
Fixpoint execute_loop (env : Env) (timeout_dict : TimeoutDict)
    (db_amphorae : list (option Amphora.t)) (amps : list (option Amphora.t))
    : M (list (option Amphora.t)) :=
  match db_amphorae with
  | [] => ret amps
  | o :: rest =>
      amp <- deref o ;;
      if bool_decide (Amphora.status amp = constants.AMPHORA_ALLOCATED) then
        got <- try_except
                 (interface <- call_driver (GetVrrpInterface amp timeout_dict)
                                 (get_vrrp_interface (amphora_driver env) amp
                                                     timeout_dict) ;;
                  ret (Some interface))
                 (fun e =>
                    LOG LOG_ERROR
                      ("Failed to get amphora VRRP interface on amphora " ++
                       "%s. Skipping this amphora as it is failing due to: " ++
                       "%s")
                      [Amphora.id amp; exn_str e] ;;
                    amphora_repo.update (Amphora.id amp)
                                        [SetStatus constants.ERROR] ;;
                    ret None) ;;
        match got with
        | None => execute_loop env timeout_dict rest amps
        | Some interface =>
            amphora_repo.update (Amphora.id amp) [SetVrrpInterface interface] ;;
            refreshed <- amphora_repo.get (Amphora.id amp) ;;
            execute_loop env timeout_dict rest (amps ++ [refreshed])
        end
      else execute_loop env timeout_dict rest amps
  end.

(** [timeout_dict = {CONN_MAX_RETRIES: ..., CONN_RETRY_INTERVAL: ...}] *)
Definition active_timeout_dict (env : Env) : TimeoutDict :=
  {| conn_max_retries :=
       active_connection_max_retries (haproxy_amphora (CONF env));
     conn_retry_interval :=
       active_connection_rety_interval (haproxy_amphora (CONF env)) |}.

(** [to_dict] stands for
    [provider_utils.db_loadbalancer_to_provider_loadbalancer(db_lb).to_dict()]. *)
Definition execute {P} (to_dict : LoadBalancer.t -> P) (env : Env)
    (loadbalancer : LoadBalancerDict) : M P :=
  db_lb <- loadbalancer_repo.get (loadbalancer_id loadbalancer) ;;
  let timeout_dict := active_timeout_dict env in
  lb <- deref db_lb ;;
  amps <- execute_loop env timeout_dict (LoadBalancer.amphorae lb) [] ;;
  ret (to_dict (LoadBalancer.set_amphorae amps lb)).
End AmphoraUpdateVRRPInterface.

Module AmphoraComputeConnectivityWait.
(** The method has no [return]: a call that does not raise evaluates to
    [None]; the payload of [get_info] goes to the debug log. *)
Definition execute (env : Env) (amphora : Amphora.t)
    (raise_retry_exception : bool) : M (option string) :=
  try_except_class TimeOutException
    (db_amphora <- amphora_repo.get (Amphora.id amphora) ;;
     amp_info <- call_driver (GetInfo db_amphora raise_retry_exception)
                   (get_info (amphora_driver env) db_amphora
                             raise_retry_exception) ;;
     LOG DEBUG "Successfuly connected to amphora %s: %s"
         [Amphora.id amphora; amp_info])
    (fun e =>
       LOG LOG_ERROR
         ("Amphora compute instance failed to become reachable. " ++
          "This either means the compute driver failed to fully " ++
          "boot the instance inside the timeout interval or the " ++
          "instance is not reachable via the lb-mgmt-net.") [] ;;
       amphora_repo.update (Amphora.id amphora) [SetStatus constants.ERROR] ;;
       raise e) ;;
  ret None.
End AmphoraComputeConnectivityWait.

Module AmphoraConfigUpdate.
(** [if flavor:] holds for a non-empty dict only. *)
Definition topology_for (env : Env) (flavor : option (gmap string string))
    : string :=
  match flavor with
  | Some f =>
      if bool_decide (f = ∅) then loadbalancer_topology (controller_worker (CONF env))
      else default (loadbalancer_topology (controller_worker (CONF env)))
                   (f !! constants.LOADBALANCER_TOPOLOGY)
  | None => loadbalancer_topology (controller_worker (CONF env))
  end.

Definition execute (env : Env) (amphora : Amphora.t)
    (flavor : option (gmap string string)) : M unit :=
  let topology := topology_for env flavor in
  let agent_config := build_agent_config env (Amphora.id amphora) topology in
  db_amp <- amphora_repo.get (Amphora.id amphora) ;;
  try_except_class AmpDriverNotImplementedError
    (call_driver (UpdateAmphoraAgentConfig db_amp agent_config)
       (update_amphora_agent_config (amphora_driver env) db_amp agent_config))
    (fun _ =>
       LOG LOG_ERROR
         ("Amphora " ++ Amphora.id amphora ++
          " does not support agent configuration " ++
          "update. Please update the amphora image for this " ++
          "amphora. Skipping.") []).
End AmphoraConfigUpdate.

(** ** Vocabulary of the properties *)

(** Failure information is absent: the entry is [None], or it is a [Failure]
    restored without its exception. *)
Definition info_absent (ex_info : option failure.Failure) : bool :=
  match ex_info with
  | None => true
  | Some f => match failure._exc_info f with None => true | Some _ => false end
  end.

(** Failure information is present and its exception is of class [c]. *)
Definition classified (c : exn_class) (ex_info : option failure.Failure) : bool :=
  match ex_info with
  | Some f =>
      match failure._exc_info f with
      | Some excp => isinstance excp c
      | None => false
      end
  | None => false
  end.

Definition amphora_status (w : World) (i : string) : option string :=
  AmphoraRow.status <$> amphora_tbl w !! i.

Definition listener_status (w : World) (i : string) : option string :=
  ListenerRow.provisioning_status <$> listener_tbl w !! i.

Definition same_tables (w w' : World) : Prop :=
  amphora_tbl w' = amphora_tbl w /\
  listener_tbl w' = listener_tbl w /\
  loadbalancer_tbl w' = loadbalancer_tbl w.

Definition is_driver_call (ev : event) : bool :=
  match ev with DriverCall _ => true | _ => false end.

Definition is_amphora_get (ev : event) : bool :=
  match ev with AmphoraGet _ => true | _ => false end.

Definition is_amphora_update (ev : event) : bool :=
  match ev with AmphoraUpdate _ _ => true | _ => false end.

(** ** Concrete data for the examples *)

Definition example_conf : Config :=
  {| haproxy_amphora :=
       {| connection_max_retries := 1;
          active_connection_max_retries := 3;
          active_connection_rety_interval := 2 |};
     controller_worker := {| loadbalancer_topology := "SINGLE" |} |}.

Definition connection_failure : failure.Failure :=
  {| failure._exc_info := Some (Exn AmpConnectionRetry "Connection retries") |}.

Definition generic_failure : failure.Failure :=
  {| failure._exc_info := Some (Exn OtherException "boom") |}.

(** First attempt failed on the connection; the worker restarted, and the
    second attempt comes back from the persistence backend without failure
    information. *)
Definition history_restored : list history_entry :=
  [(1, [("amp-wait", Some connection_failure)]);
   (2, [("amp-wait", None)])].

(** A store with one active/standby load balancer [lb-1] on two allocated
    amphorae with one listener, and a load balancer [lb-2] without
    listeners. *)
Definition example_world : World :=
  mkWorld
    (<["amp-1" := AmphoraRow.mk (Some "vm-1") "ALLOCATED" None (Some "lb-1")]>
       (<["amp-2" := AmphoraRow.mk (Some "vm-2") "ALLOCATED" None (Some "lb-1")]>
          ∅))
    (<["listener-1" := ListenerRow.mk "ACTIVE" "lb-1"]> ∅)
    (<["lb-1" := LoadBalancerRow.mk "ACTIVE" "ACTIVE_STANDBY"]>
       (<["lb-2" := LoadBalancerRow.mk "ACTIVE" "SINGLE"]> ∅))
    [].

Definition amp1 : Amphora.t :=
  Amphora.mk "amp-1" (Some "vm-1") "ALLOCATED" None (Some "lb-1").

Definition amp2 : Amphora.t :=
  Amphora.mk "amp-2" (Some "vm-2") "ALLOCATED" None (Some "lb-1").

Definition is_amp2 (amp : option Amphora.t) : bool :=
  match amp with
  | Some a => bool_decide (Amphora.id a = "amp-2")
  | None => false
  end.

(** A driver for which [amp-1] answers and [amp-2] is out of order: its
    calls fail with an internal error, its [get_info] times out and its image
    does not know the agent configuration update.  Handed no load balancer,
    [update_amphora_listeners] trips over [None]. *)
Definition example_driver : AmphoraDriver :=
  {| update_amphora_listeners lb amp _ :=
       match lb with
       | None =>
           Raised (Exn AttributeError
                       "'NoneType' object has no attribute 'listeners'")
       | Some _ =>
           if is_amp2 amp then Raised (Exn OtherException "Internal Server Error")
           else Returned tt
       end;
     start _ _ := Returned tt;
     get_info amp _ :=
       if is_amp2 amp then Raised (Exn TimeOutException "contacting the amphora timed out")
       else Returned "{'api_version': '1.0'}";
     get_vrrp_interface amp _ :=
       if is_amp2 (Some amp) then Raised (Exn OtherException "Internal Server Error")
       else Returned (Some "eth1");
     update_amphora_agent_config amp _ :=
       if is_amp2 amp then Raised (Exn AmpDriverNotImplementedError "not implemented")
       else Returned tt |}.

Definition example_env : Env :=
  {| CONF := example_conf;
     amphora_driver := example_driver;
     build_agent_config amphora_id topology :=
       "[controller_worker] loadbalancer_topology = " ++ topology ++
       " amphora_id = " ++ amphora_id |}.

Definition is_raised {A} (o : outcome A) : bool :=
  match o with Raised _ => true | Returned _ => false end.

(** The loop of [AmphoraUpdateVRRPInterface] reaches the entry [o], [o] is
    the amphora [j], and its [get_vrrp_interface] raises. *)
Definition vrrp_fails (env : Env) (timeout_dict : TimeoutDict) (j : string)
    (o : option Amphora.t) : bool :=
  match o with
  | Some amp =>
      bool_decide (Amphora.id amp = j) &&
      bool_decide (Amphora.status amp = constants.AMPHORA_ALLOCATED) &&
      is_raised (get_vrrp_interface (amphora_driver env) amp timeout_dict)
  | None => false
  end.

Definition example_lb : LoadBalancer.t :=
  LoadBalancer.mk "lb-1" "ACTIVE" "ACTIVE_STANDBY"
    [Listener.mk "listener-1" "ACTIVE"] [Some amp1; Some amp2].

(** ** The other tasks of the file *)

(** The operations of the amphora driver that the tasks above do not call.
    Like the others they answer or raise as a function of what they are
    handed.  Their calls are not entered in the trace: these tasks are
    observed through their outcome, the store and the log. *)
Module AmphoraDriverOps.
Record t := {
  update : LoadBalancer.t -> outcome unit;
  delete : option Listener.t -> outcome unit;
  finalize_amphora : option Amphora.t -> outcome unit;
  stop_vrrp_service : option LoadBalancer.t -> outcome unit;
  start_vrrp_service : option LoadBalancer.t -> outcome unit }.
End AmphoraDriverOps.

Definition answer {A} (a : outcome A) : M A := fun w => (a, w).

Module ListenersUpdate.
(** Task to update amphora with all specified listeners' configurations.
    [if loadbalancer:] holds for every object but [None]. *)
Definition execute (driver : AmphoraDriverOps.t) (loadbalancer_id : string)
    : M unit :=
  loadbalancer <- loadbalancer_repo.get loadbalancer_id ;;
  match loadbalancer with
  | Some lb => answer (AmphoraDriverOps.update driver lb)
  | None =>
      LOG LOG_ERROR
        ("Load balancer %s for listeners update not found. " ++
         "Skipping update.") [loadbalancer_id]
  end.

Definition revert (loadbalancer_id : string) : M unit :=
  LOG WARNING "Reverting listeners updates." [] ;;
  loadbalancer <- loadbalancer_repo.get loadbalancer_id ;;
  lb <- deref loadbalancer ;;
  forM_ (fun listener =>
           task_utils.mark_listener_prov_status_error (Listener.id listener))
        (LoadBalancer.listeners lb).
End ListenersUpdate.

(** [ListenerDelete.execute] *)
Definition ListenerDelete_execute (driver : AmphoraDriverOps.t)
    (listener : ListenerDict) : M unit :=
  db_listener <- listener_repo.get (listener_id listener) ;;
  answer (AmphoraDriverOps.delete driver db_listener) ;;
  LOG DEBUG "Deleted the listener on the vip" [].

(** [AmphoraFinalize.execute] *)
Definition AmphoraFinalize_execute (driver : AmphoraDriverOps.t)
    (amphora : Amphora.t) : M unit :=
  db_amp <- amphora_repo.get (Amphora.id amphora) ;;
  answer (AmphoraDriverOps.finalize_amphora driver db_amp) ;;
  LOG DEBUG "Finalized the amphora." [].

Module AmphoraVRRPStop.
Definition execute (driver : AmphoraDriverOps.t)
    (loadbalancer : LoadBalancerDict) : M unit :=
  db_lb <- loadbalancer_repo.get (loadbalancer_id loadbalancer) ;;
  answer (AmphoraDriverOps.stop_vrrp_service driver db_lb) ;;
  LOG DEBUG "Stopped VRRP of loadbalancer %s amphorae"
      [loadbalancer_id loadbalancer].
End AmphoraVRRPStop.

Module AmphoraVRRPStart.
Definition execute (driver : AmphoraDriverOps.t)
    (loadbalancer : LoadBalancerDict) : M unit :=
  db_lb <- loadbalancer_repo.get (loadbalancer_id loadbalancer) ;;
  answer (AmphoraDriverOps.start_vrrp_service driver db_lb) ;;
  LOG DEBUG "Started VRRP of loadbalancer %s amphorae"
      [loadbalancer_id loadbalancer].
End AmphoraVRRPStart.

Module AmphoraePostNetworkPlug.
(** The loop of [revert] over
    [filter(lambda amp: amp.status == AMPHORA_ALLOCATED, db_lb.amphorae)]. *)
Fixpoint revert_loop (db_amphorae : list (option Amphora.t)) : M unit :=
  match db_amphorae with
  | [] => ret tt
  | o :: rest =>
      amp <- deref o ;;
      if bool_decide (Amphora.status amp = constants.AMPHORA_ALLOCATED) then
        task_utils.mark_amphora_status_error (Amphora.id amp) ;;
        revert_loop rest
      else revert_loop rest
  end.

(** [revert(self, result, loadbalancer, added_ports, ...)]; [added_ports] is
    not read. *)
Definition revert {A} (result : task_result A)
    (loadbalancer : LoadBalancerDict) : M unit :=
  match result with
  | Failed _ => ret tt
  | Result _ =>
      db_lb <- loadbalancer_repo.get (loadbalancer_id loadbalancer) ;;
      LOG WARNING "Reverting post network plug." [] ;;
      lb <- deref db_lb ;;
      revert_loop (LoadBalancer.amphorae lb)
  end.
End AmphoraePostNetworkPlug.

Module AmphoraePostVIPPlug.
Definition revert {A} (result : task_result A)
    (loadbalancer : LoadBalancerDict) : M unit :=
  match result with
  | Failed _ => ret tt
  | Result _ =>
      LOG WARNING "Reverting amphorae post vip plug." [] ;;
      task_utils.mark_loadbalancer_prov_status_error
        (loadbalancer_id loadbalancer)
  end.
End AmphoraePostVIPPlug.

(** The loop of [AmphoraUpdateVRRPInterface.revert]: each update sits in its
    own [try], whose handler logs and goes on. *)
Fixpoint AmphoraUpdateVRRPInterface_revert_loop
    (db_amphorae : list (option Amphora.t)) : M unit :=
  match db_amphorae with
  | [] => ret tt
  | o :: rest =>
      amp <- deref o ;;
      if bool_decide (Amphora.status amp = constants.AMPHORA_ALLOCATED) then
        try_except
          (amphora_repo.update (Amphora.id amp) [SetVrrpInterface None])
          (fun e =>
             LOG LOG_ERROR
               ("Failed to update amphora %(amp)s " ++
                "VRRP interface to None due to: %(except)s")
               [Amphora.id amp; exn_str e]) ;;
        AmphoraUpdateVRRPInterface_revert_loop rest
      else AmphoraUpdateVRRPInterface_revert_loop rest
  end.

(** [AmphoraUpdateVRRPInterface.revert] *)
Definition AmphoraUpdateVRRPInterface_revert {A} (result : task_result A)
    (loadbalancer : LoadBalancerDict) : M unit :=
  match result with
  | Failed _ => ret tt
  | Result _ =>
      LOG WARNING "Reverting Get Amphora VRRP Interface." [] ;;
      db_lb <- loadbalancer_repo.get (loadbalancer_id loadbalancer) ;;
      lb <- deref db_lb ;;
      AmphoraUpdateVRRPInterface_revert_loop (LoadBalancer.amphorae lb)
  end.

(** ** Vocabulary of the further properties *)

(** An entry of the last attempt that lets [AmpRetry] retry. *)
Definition retryable (item : string * option failure.Failure) : bool :=
  info_absent item.2 || classified AmpConnectionRetry item.2.

Definition mark_error_row (r : AmphoraRow.t) : AmphoraRow.t :=
  apply_change r (SetStatus constants.ERROR).

Definition clear_vrrp_row (r : AmphoraRow.t) : AmphoraRow.t :=
  apply_change r (SetVrrpInterface None).

Definition listener_error_row (r : ListenerRow.t) : ListenerRow.t :=
  ListenerRow.mk constants.ERROR (ListenerRow.load_balancer_id r).

(** The row is an amphora of the load balancer and is ALLOCATED. *)
Definition allocated_of (lb_id : string) (r : AmphoraRow.t) : bool :=
  bool_decide (AmphoraRow.load_balancer_id r = Some lb_id) &&
  bool_decide (AmphoraRow.status r = constants.AMPHORA_ALLOCATED).

(** What [AmphoraUpdateVRRPInterface.execute] does to the row [r] of an
    allocated amphora [amp]: the discovered interface, or ERROR. *)
Definition vrrp_row (env : Env) (amp : Amphora.t) (r : AmphoraRow.t)
    : AmphoraRow.t :=
  match get_vrrp_interface (amphora_driver env) amp
          (AmphoraUpdateVRRPInterface.active_timeout_dict env) with
  | Returned interface => apply_change r (SetVrrpInterface interface)
  | Raised _ => mark_error_row r
  end.

Definition vrrp_step (env : Env) (tbl : gmap string AmphoraRow.t)
    (o : option Amphora.t) : gmap string AmphoraRow.t :=
  match o with
  | Some amp =>
      if bool_decide (Amphora.status amp = constants.AMPHORA_ALLOCATED)
      then alter (vrrp_row env amp) (Amphora.id amp) tbl
      else tbl
  | None => tbl
  end.

(** The amphorae [AmphoraUpdateVRRPInterface.execute] hands back: the
    allocated ones whose call answered, each with the interface it gave. *)
Fixpoint vrrp_survivors (env : Env) (db_amphorae : list (option Amphora.t))
    : list (option Amphora.t) :=
  match db_amphorae with
  | [] => []
  | None :: rest => vrrp_survivors env rest
  | Some amp :: rest =>
      if bool_decide (Amphora.status amp = constants.AMPHORA_ALLOCATED) then
        match get_vrrp_interface (amphora_driver env) amp
                (AmphoraUpdateVRRPInterface.active_timeout_dict env) with
        | Returned interface =>
            Some (Amphora.mk (Amphora.id amp) (Amphora.compute_id amp)
                    (Amphora.status amp) interface
                    (Amphora.load_balancer_id amp))
            :: vrrp_survivors env rest
        | Raised _ => vrrp_survivors env rest
        end
      else vrrp_survivors env rest
  end.

(** A driver whose remaining operations all fail. *)
Definition failing_ops : AmphoraDriverOps.t :=
  {| AmphoraDriverOps.update _ := Raised (Exn OtherException "unreachable");
     AmphoraDriverOps.delete _ := Raised (Exn OtherException "unreachable");
     AmphoraDriverOps.finalize_amphora _ :=
       Raised (Exn AmpConnectionRetry "Connection retries");
     AmphoraDriverOps.stop_vrrp_service _ :=
       Raised (Exn OtherException "unreachable");
     AmphoraDriverOps.start_vrrp_service _ :=
       Raised (Exn OtherException "unreachable") |}.

(** The identifiers the revert loops write to: the entries that are
    ALLOCATED, in order. *)
Definition allocated_ids (db_amphorae : list (option Amphora.t)) : list string :=
  omap (fun o : option Amphora.t =>
          match o with
          | Some amp =>
              if bool_decide (Amphora.status amp = constants.AMPHORA_ALLOCATED)
              then Some (Amphora.id amp) else None
          | None => None
          end) db_amphorae.

(** Between [w] and [w'] the listeners of the load balancer went to ERROR
    and nothing else changed. *)
Definition listeners_marked (lb_id : string) (w w' : World) : Prop :=
  amphora_tbl w' = amphora_tbl w /\
  loadbalancer_tbl w' = loadbalancer_tbl w /\
  forall j,
    listener_tbl w' !! j =
      (fun r => if bool_decide (ListenerRow.load_balancer_id r = lb_id)
                then listener_error_row r else r) <$> listener_tbl w !! j.

(** Between [w] and [w'] the rows of the allocated amphorae of the load
    balancer went through [f] and nothing else changed. *)
Definition amphorae_rewritten (f : AmphoraRow.t -> AmphoraRow.t)
    (lb_id : string) (w w' : World) : Prop :=
  listener_tbl w' = listener_tbl w /\
  loadbalancer_tbl w' = loadbalancer_tbl w /\
  forall j,
    amphora_tbl w' !! j =
      (fun r => if allocated_of lb_id r then f r else r) <$> amphora_tbl w !! j.

Definition loadbalancer_status (w : World) (i : string) : option string :=
  LoadBalancerRow.provisioning_status <$> loadbalancer_tbl w !! i.

(** The topology [AmphoraConfigUpdate] settles on: the flavor's value under
    "loadbalancer_topology" when there is one, the configured default
    otherwise. *)
Definition chosen_topology (CONF : Config) (flavor : option (gmap string string))
    : string :=
  match flavor with
  | Some f =>
      match f !! "loadbalancer_topology" with
      | Some topology => topology
      | None => loadbalancer_topology (controller_worker CONF)
      end
  | None => loadbalancer_topology (controller_worker CONF)
  end.



(** * Properties *)

(** ** AmpRetry *)

Lemma on_failure_loop_exhausted n max items :
  max < n -> AmpRetry.on_failure_loop n max items = retry.REVERT_ALL.
Proof.
  intros Hlt. induction items as [|[task_name ex_info] rest IH]; simpl.
  - reflexivity.
  - destruct (Z.leb_spec n max); [lia | exact IH].
Qed.

Lemma on_failure_loop_retry n max items task_name ex_info :
  n <= max ->
  (task_name, ex_info) ∈ items ->
  info_absent ex_info || classified AmpConnectionRetry ex_info = true ->
  AmpRetry.on_failure_loop n max items = retry.RETRY.
Proof.
  intros Hle Hin Hok.
  induction items as [|[tn ei] rest IH]; [by apply elem_of_nil in Hin|].
  simpl. destruct (Z.leb_spec n max); [|lia].
  apply elem_of_cons in Hin as [Heq | Hin].
  - inversion Heq; subst tn ei.
    destruct ex_info as [[[excp|]]|]; simpl in *; try reflexivity.
    by rewrite Hok.
  - destruct ei as [[[excp|]]|]; simpl; try reflexivity.
    destruct (isinstance excp AmpConnectionRetry); [reflexivity | by apply IH].
Qed.

Lemma on_failure_loop_revert n max items :
  Forall (fun item => info_absent item.2 = false) items ->
  Forall (fun item => classified AmpConnectionRetry item.2 = false) items ->
  AmpRetry.on_failure_loop n max items = retry.REVERT_ALL.
Proof.
  induction items as [|[tn ei] rest IH]; intros Hp Hc; simpl; [reflexivity|].
  apply Forall_cons in Hp as [Hp1 Hp]. apply Forall_cons in Hc as [Hc1 Hc].
  simpl in *. destruct ei as [[[excp|]]|]; simpl in *; try discriminate.
  rewrite Hc1. destruct (n <=? max); by apply IH.
Qed.

(** C2, as stated, fails: with [connection_max_retries = 1] and a history of
    two attempts whose last entry has no failure information, [on_failure]
    answers REVERT_ALL, not RETRY. *)
Lemma on_failure_absent_info_beyond_max :
  last history_restored = Some (2, [("amp-wait", None)]) /\
  info_absent None = true /\
  connection_max_retries (haproxy_amphora example_conf)
    < Z.of_nat (length history_restored) /\
  AmpRetry.on_failure example_conf history_restored = Returned retry.REVERT_ALL /\
  AmpRetry.on_failure example_conf history_restored <> Returned retry.RETRY.
Proof. repeat split; try reflexivity. discriminate. Qed.

(** C2 (amended): when the most recent attempt has a task entry with absent
    failure information, [AmpRetry.on_failure] decides RETRY if the history
    holds at most [connection_max_retries] attempts, and REVERT_ALL if it holds
    more: the test for absent information sits under the bound. *)
Theorem on_failure_absent_info CONF (history : list history_entry) n last_errors
    task_name ex_info :
  last history = Some (n, last_errors) ->
  (task_name, ex_info) ∈ last_errors ->
  info_absent ex_info = true ->
  AmpRetry.on_failure CONF history =
    Returned (if Z.of_nat (length history)
                   <=? connection_max_retries (haproxy_amphora CONF)
              then retry.RETRY else retry.REVERT_ALL).
Proof.
  intros Hlast Hin Habs. unfold AmpRetry.on_failure. rewrite Hlast. f_equal.
  destruct (Z.leb_spec (Z.of_nat (length history))
              (connection_max_retries (haproxy_amphora CONF))) as [Hle | Hgt].
  - eapply on_failure_loop_retry; [exact Hle | exact Hin |].
    by rewrite Habs.
  - by apply on_failure_loop_exhausted.
Qed.

Lemma on_failure_absent_info_witness :
  AmpRetry.on_failure example_conf [(1, [("amp-wait", Some {| failure._exc_info := None |})])]
  = Returned retry.RETRY.
Proof.
  exact (on_failure_absent_info example_conf
           [(1, [("amp-wait", Some {| failure._exc_info := None |})])]
           1 _ "amp-wait" _ eq_refl (list_elem_of_here _ _) eq_refl).
Defined.

(** C3: with failure information present, [AmpRetry.on_failure] decides RETRY
    when a failure of the most recent attempt is an [AmpConnectionRetry] and the
    history holds at most [connection_max_retries] attempts; it decides
    REVERT_ALL when the history is longer, and when no failure of the attempt
    is an [AmpConnectionRetry]. *)
Theorem on_failure_present_info CONF (history : list history_entry) n last_errors :
  last history = Some (n, last_errors) ->
  ((exists task_name ex_info,
       (task_name, ex_info) ∈ last_errors /\
       classified AmpConnectionRetry ex_info = true) ->
   Z.of_nat (length history) <= connection_max_retries (haproxy_amphora CONF) ->
   AmpRetry.on_failure CONF history = Returned retry.RETRY) /\
  (Forall (fun item => info_absent item.2 = false) last_errors ->
   connection_max_retries (haproxy_amphora CONF) < Z.of_nat (length history) \/
   Forall (fun item => classified AmpConnectionRetry item.2 = false) last_errors ->
   AmpRetry.on_failure CONF history = Returned retry.REVERT_ALL).
Proof.
  intros Hlast. unfold AmpRetry.on_failure. rewrite Hlast. split.
  - intros (task_name & ex_info & Hin & Hcls) Hle. f_equal.
    eapply on_failure_loop_retry; [exact Hle | exact Hin |].
    rewrite Hcls. apply orb_true_r.
  - intros Hpresent [Hgt | Hother]; f_equal.
    + by apply on_failure_loop_exhausted.
    + by apply on_failure_loop_revert.
Qed.

Lemma on_failure_present_info_witness :
  AmpRetry.on_failure example_conf [(1, [("amp-wait", Some connection_failure)])]
    = Returned retry.RETRY /\
  AmpRetry.on_failure example_conf
      [(1, [("amp-wait", Some connection_failure)]);
       (2, [("amp-wait", Some connection_failure)])]
    = Returned retry.REVERT_ALL /\
  AmpRetry.on_failure example_conf [(1, [("amp-wait", Some generic_failure)])]
    = Returned retry.REVERT_ALL.
Proof.
  split; [|split].
  - apply (on_failure_present_info example_conf
             [(1, [("amp-wait", Some connection_failure)])] 1 _ eq_refl).
    + exists "amp-wait", (Some connection_failure).
      split; [apply list_elem_of_here | reflexivity].
    + simpl. lia.
  - apply (on_failure_present_info example_conf
             [(1, [("amp-wait", Some connection_failure)]);
              (2, [("amp-wait", Some connection_failure)])] 2 _ eq_refl).
    + repeat constructor.
    + left. simpl. lia.
  - apply (on_failure_present_info example_conf
             [(1, [("amp-wait", Some generic_failure)])] 1 _ eq_refl).
    + repeat constructor.
    + right. repeat constructor.
Defined.

(** ** Stepping through a task *)

Ltac run_task :=
  unfold bind, ret, raise, try_except, try_except_class, tell, LOG,
    call_driver, deref, getitem,
    amphora_repo.get, amphora_repo.update, listener_repo.get,
    listener_repo.update, loadbalancer_repo.get, loadbalancer_repo.update,
    task_utils.mark_amphora_status_error,
    task_utils.mark_listener_prov_status_error,
    task_utils.mark_loadbalancer_prov_status_error;
  simpl.

Lemma isinstance_true e c : exn_cls e = c -> isinstance e c = true.
Proof. intros H. unfold isinstance. by apply bool_decide_eq_true. Qed.

(** ** ListenersStart *)

(** C10: on a load balancer without listeners [ListenersStart.execute] looks
    the load balancer up and returns: no driver call, no amphora lookup, and
    the three tables are as they were. *)
Theorem ListenersStart_execute_no_listeners env loadbalancer amphora w lb :
  lookup_loadbalancer w (loadbalancer_id loadbalancer) = Some lb ->
  LoadBalancer.listeners lb = [] ->
  exists w' new,
    ListenersStart.execute env loadbalancer amphora w = (Returned tt, w') /\
    same_tables w w' /\
    trace w' = (trace w ++ new)%list /\
    new = [LoadBalancerGet (loadbalancer_id loadbalancer)] /\
    Forall (fun ev => is_driver_call ev = false /\ is_amphora_get ev = false) new.
Proof.
  intros Hlb Hnone.
  exists (emit (LoadBalancerGet (loadbalancer_id loadbalancer)) w),
         [LoadBalancerGet (loadbalancer_id loadbalancer)].
  unfold ListenersStart.execute. run_task. rewrite Hlb. simpl.
  rewrite Hnone. simpl.
  repeat split. repeat constructor.
Qed.

Lemma ListenersStart_execute_no_listeners_witness :
  exists w' new,
    ListenersStart.execute example_env {| loadbalancer_id := "lb-2" |}
        (Some amp1) example_world = (Returned tt, w') /\
    same_tables example_world w' /\
    trace w' = (trace example_world ++ new)%list /\
    new = [LoadBalancerGet "lb-2"] /\
    Forall (fun ev => is_driver_call ev = false /\ is_amphora_get ev = false) new.
Proof.
  apply (ListenersStart_execute_no_listeners example_env
           {| loadbalancer_id := "lb-2" |} (Some amp1) example_world
           (LoadBalancer.mk "lb-2" "ACTIVE" "SINGLE" [] [])).
  - vm_compute. reflexivity.
  - reflexivity.
Defined.

(** ** AmphoraConfigUpdate *)

(** C8: with [flavor = None] the agent configuration handed to the driver is
    built with [CONF.controller_worker.loadbalancer_topology]; with a flavor
    that maps "loadbalancer_topology" to "ACTIVE_STANDBY" it is built with
    "ACTIVE_STANDBY". *)
Theorem AmphoraConfigUpdate_execute_topology env amphora w :
  (exists r w' rest,
      AmphoraConfigUpdate.execute env amphora None w = (r, w') /\
      trace w' =
        (trace w ++
         [AmphoraGet (Amphora.id amphora);
          DriverCall
            (UpdateAmphoraAgentConfig (lookup_amphora w (Amphora.id amphora))
               (build_agent_config env (Amphora.id amphora)
                  (loadbalancer_topology (controller_worker (CONF env)))))] ++
         rest)%list) /\
  (forall flavor : gmap string string,
      flavor !! "loadbalancer_topology" = Some "ACTIVE_STANDBY" ->
      exists r w' rest,
        AmphoraConfigUpdate.execute env amphora (Some flavor) w = (r, w') /\
        trace w' =
          (trace w ++
           [AmphoraGet (Amphora.id amphora);
            DriverCall
              (UpdateAmphoraAgentConfig (lookup_amphora w (Amphora.id amphora))
                 (build_agent_config env (Amphora.id amphora)
                    "ACTIVE_STANDBY"))] ++
           rest)%list).
Proof.
  assert (Hrun : forall flavor,
    exists r w' rest,
      AmphoraConfigUpdate.execute env amphora flavor w = (r, w') /\
      trace w' =
        (trace w ++
         [AmphoraGet (Amphora.id amphora);
          DriverCall
            (UpdateAmphoraAgentConfig (lookup_amphora w (Amphora.id amphora))
               (build_agent_config env (Amphora.id amphora)
                  (AmphoraConfigUpdate.topology_for env flavor)))] ++
         rest)%list).
  { intros flavor. unfold AmphoraConfigUpdate.execute. run_task.
    destruct (update_amphora_agent_config _ _ _) as [[]|e].
    - eexists _, _, []. split; [reflexivity|]. simpl.
      by rewrite <- app_assoc.
    - destruct (isinstance e AmpDriverNotImplementedError).
      + eexists _, _, [_]. split; [reflexivity|]. simpl.
        by rewrite <- !app_assoc.
      + eexists _, _, []. split; [reflexivity|]. simpl.
        by rewrite <- app_assoc. }
  split.
  - apply (Hrun None).
  - intros flavor Hkey.
    replace "ACTIVE_STANDBY"
      with (AmphoraConfigUpdate.topology_for env (Some flavor)); [apply Hrun|].
    unfold AmphoraConfigUpdate.topology_for, constants.LOADBALANCER_TOPOLOGY.
    rewrite Hkey. case_bool_decide as Hempty; [|reflexivity].
    rewrite Hempty in Hkey. by rewrite lookup_empty in Hkey.
Qed.

Lemma AmphoraConfigUpdate_execute_topology_witness :
  exists r w' rest,
    AmphoraConfigUpdate.execute example_env amp1
      (Some {["loadbalancer_topology" := "ACTIVE_STANDBY"]}) example_world
      = (r, w') /\
    trace w' =
      (trace example_world ++
       [AmphoraGet "amp-1";
        DriverCall
          (UpdateAmphoraAgentConfig (lookup_amphora example_world "amp-1")
             (build_agent_config example_env "amp-1" "ACTIVE_STANDBY"))] ++
       rest)%list.
Proof.
  apply (proj2 (AmphoraConfigUpdate_execute_topology example_env amp1
                  example_world)
           {["loadbalancer_topology" := "ACTIVE_STANDBY"]}).
  vm_compute. reflexivity.
Defined.

(** C9: when [update_amphora_agent_config] raises
    [AmpDriverNotImplementedError], [AmphoraConfigUpdate.execute] writes one
    error record to the log, returns, and leaves the three tables as they
    were. *)
Theorem AmphoraConfigUpdate_execute_not_implemented env amphora flavor w e :
  update_amphora_agent_config (amphora_driver env)
    (lookup_amphora w (Amphora.id amphora))
    (build_agent_config env (Amphora.id amphora)
       (AmphoraConfigUpdate.topology_for env flavor)) = Raised e ->
  exn_cls e = AmpDriverNotImplementedError ->
  exists w' call msg,
    AmphoraConfigUpdate.execute env amphora flavor w = (Returned tt, w') /\
    same_tables w w' /\
    trace w' =
      (trace w ++ [AmphoraGet (Amphora.id amphora); DriverCall call;
                   Log LOG_ERROR msg []])%list.
Proof.
  intros Hdrv Hcls. unfold AmphoraConfigUpdate.execute. run_task.
  rewrite Hdrv, (isinstance_true _ _ Hcls).
  eexists _, _, _. split; [reflexivity|]. split; [by repeat split|].
  simpl. by rewrite <- !app_assoc.
Qed.

Lemma AmphoraConfigUpdate_execute_not_implemented_witness :
  exists w' call msg,
    AmphoraConfigUpdate.execute example_env amp2 None example_world
      = (Returned tt, w') /\
    same_tables example_world w' /\
    trace w' =
      (trace example_world ++ [AmphoraGet "amp-2"; DriverCall call;
                               Log LOG_ERROR msg []])%list.
Proof.
  apply (AmphoraConfigUpdate_execute_not_implemented example_env amp2 None
           example_world (Exn AmpDriverNotImplementedError "not implemented")).
  - vm_compute. reflexivity.
  - reflexivity.
Defined.

(** ** AmphoraComputeConnectivityWait *)

(** C6, as stated, fails in its second half: when [get_info] answers,
    [execute] returns [None], not the payload. *)
Lemma ComputeConnectivityWait_execute_returns_none :
  get_info example_driver (lookup_amphora example_world "amp-1") false
    = Returned "{'api_version': '1.0'}" /\
  fst (AmphoraComputeConnectivityWait.execute example_env amp1 false
         example_world) = Returned None /\
  fst (AmphoraComputeConnectivityWait.execute example_env amp1 false
         example_world) <> Returned (Some "{'api_version': '1.0'}").
Proof. repeat split. vm_compute. discriminate. Qed.

(** C6 (amended): when [get_info] raises a [TimeOutException],
    [AmphoraComputeConnectivityWait.execute] sets the status of that amphora
    to ERROR, touches no other row, and raises the same exception again; when
    [get_info] answers, [execute] returns [None], writes the payload to the
    debug log, and issues no update. *)
Theorem ComputeConnectivityWait_execute_spec env amphora raise_retry_exception w :
  (forall e,
      get_info (amphora_driver env) (lookup_amphora w (Amphora.id amphora))
               raise_retry_exception = Raised e ->
      exn_cls e = TimeOutException ->
      exists w',
        AmphoraComputeConnectivityWait.execute env amphora
          raise_retry_exception w = (Raised e, w') /\
        (is_Some (amphora_tbl w !! Amphora.id amphora) ->
         amphora_status w' (Amphora.id amphora) = Some constants.ERROR) /\
        (forall j, j <> Amphora.id amphora ->
                   amphora_tbl w' !! j = amphora_tbl w !! j) /\
        listener_tbl w' = listener_tbl w /\
        loadbalancer_tbl w' = loadbalancer_tbl w) /\
  (forall amp_info,
      get_info (amphora_driver env) (lookup_amphora w (Amphora.id amphora))
               raise_retry_exception = Returned amp_info ->
      exists w' call msg,
        AmphoraComputeConnectivityWait.execute env amphora
          raise_retry_exception w = (Returned None, w') /\
        same_tables w w' /\
        trace w' =
          (trace w ++ [AmphoraGet (Amphora.id amphora); DriverCall call;
                       Log DEBUG msg [Amphora.id amphora; amp_info]])%list /\
        Forall (fun ev => is_amphora_update ev = false)
               [AmphoraGet (Amphora.id amphora); DriverCall call;
                Log DEBUG msg [Amphora.id amphora; amp_info]]).
Proof.
  split.
  - intros e Hdrv Hcls. unfold AmphoraComputeConnectivityWait.execute.
    run_task. rewrite Hdrv, (isinstance_true _ _ Hcls). simpl.
    eexists. split; [reflexivity|]. simpl. repeat split.
    + intros [row Hrow]. unfold amphora_status. simpl.
      rewrite lookup_alter, decide_True by reflexivity.
      by rewrite Hrow.
    + intros j Hj. by rewrite lookup_alter_ne.
  - intros amp_info Hdrv. unfold AmphoraComputeConnectivityWait.execute.
    run_task. rewrite Hdrv. simpl.
    eexists _, _, _. split; [reflexivity|]. split; [by repeat split|].
    simpl. split; [by rewrite <- !app_assoc | repeat constructor].
Qed.

Lemma ComputeConnectivityWait_execute_spec_witness :
  exists w',
    AmphoraComputeConnectivityWait.execute example_env amp2 false example_world
      = (Raised (Exn TimeOutException "contacting the amphora timed out"), w') /\
    (is_Some (amphora_tbl example_world !! "amp-2") ->
     amphora_status w' "amp-2" = Some "ERROR") /\
    (forall j, j <> "amp-2" ->
               amphora_tbl w' !! j = amphora_tbl example_world !! j) /\
    listener_tbl w' = listener_tbl example_world /\
    loadbalancer_tbl w' = loadbalancer_tbl example_world.
Proof.
  apply (proj1 (ComputeConnectivityWait_execute_spec example_env amp2 false
                  example_world)
           (Exn TimeOutException "contacting the amphora timed out")).
  - vm_compute. reflexivity.
  - reflexivity.
Defined.

(** ** Reverts of the single-target tasks *)

(** C4, as stated, fails for the listener delete: [ListenerDelete.revert],
    handed the failure of its own [execute], moves the listener from ACTIVE to
    ERROR. *)
Lemma ListenerDelete_revert_own_failure_marks_error :
  listener_status example_world "listener-1" = Some "ACTIVE" /\
  listener_status
    (snd (ListenerDelete.revert (Failed generic_failure : task_result unit)
            {| listener_id := "listener-1" |} example_world))
    "listener-1" = Some "ERROR".
Proof. split; vm_compute; reflexivity. Qed.

(** C4 (amended): the reverts of amphora finalize, post-network plug and
    post-VIP plug, handed a failure marker, return at once and leave the world
    as it is.  [ListenerDelete.revert] does not look at the result: whatever it
    is, the listener's provisioning status is set to ERROR. *)
Theorem revert_on_own_failure {A} (f : failure.Failure) amphora loadbalancer w :
  AmphoraFinalize.revert (Failed f : task_result A) amphora w
    = (Returned tt, w) /\
  AmphoraPostNetworkPlug.revert (Failed f : task_result A) amphora w
    = (Returned tt, w) /\
  AmphoraPostVIPPlug.revert (Failed f : task_result A) amphora loadbalancer w
    = (Returned tt, w) /\
  (forall (result : task_result A) listener,
      exists w',
        ListenerDelete.revert result listener w = (Returned tt, w') /\
        listener_status w' (listener_id listener)
          = (fun _ => constants.ERROR) <$>
              listener_status w (listener_id listener)).
Proof.
  repeat split.
  intros result listener. unfold ListenerDelete.revert. run_task.
  eexists. split; [reflexivity|]. unfold listener_status. simpl.
  rewrite lookup_alter, decide_True by reflexivity.
  by destruct (listener_tbl w !! listener_id listener).
Qed.

(** ** Facts about the store *)

Lemma lookup_loadbalancer_same_tables w w' i :
  same_tables w w' -> lookup_loadbalancer w' i = lookup_loadbalancer w i.
Proof.
  intros (Ha & Hl & Hb).
  unfold lookup_loadbalancer, listeners_of, amphorae_of.
  by rewrite Ha, Hl, Hb.
Qed.

Lemma lookup_loadbalancer_amphorae w i lb :
  lookup_loadbalancer w i = Some lb -> LoadBalancer.amphorae lb = amphorae_of w i.
Proof.
  unfold lookup_loadbalancer. destruct (loadbalancer_tbl w !! i); simpl; [|done].
  intros [= <-]. reflexivity.
Qed.

Lemma amphorae_of_elem w i o :
  o ∈ amphorae_of w i ->
  exists amp, o = Some amp /\
              lookup_amphora w (Amphora.id amp) = Some amp /\
              Amphora.load_balancer_id amp = Some i.
Proof.
  unfold amphorae_of. intros Hin.
  apply list_elem_of_fmap in Hin as ([k r] & -> & Hin).
  apply list_elem_of_filter in Hin as [Hlb Hin].
  apply elem_of_map_to_list in Hin. simpl in *.
  eexists. split; [reflexivity|]. unfold lookup_amphora. simpl.
  rewrite Hin. split; [reflexivity | exact Hlb].
Qed.

Lemma amphorae_of_all_some w i : Forall is_Some (amphorae_of w i).
Proof.
  apply Forall_forall. intros o Hin.
  apply amphorae_of_elem in Hin as (amp & -> & _). by eexists.
Qed.

Lemma lookup_amphora_row w amp :
  lookup_amphora w (Amphora.id amp) = Some amp ->
  is_Some (amphora_tbl w !! Amphora.id amp).
Proof.
  unfold lookup_amphora. destruct (amphora_tbl w !! Amphora.id amp); [by eexists | done].
Qed.

Lemma py_index_fmap {A B} (f : A -> B) (l : list A) (i : Z) :
  py_index (f <$> l) i = f <$> py_index l i.
Proof.
  unfold py_index. rewrite length_fmap.
  repeat case_match; try reflexivity; apply list_lookup_fmap.
Qed.

(** The lookups of [for amp in amphorae: db_amphorae.append(...)] answer from
    the store as it is and change no table. *)
Lemma mapM_amphora_get amphorae : forall w,
  exists tr,
    mapM (fun amp => amphora_repo.get (Amphora.id amp)) amphorae w
    = (Returned ((fun amp => lookup_amphora w (Amphora.id amp)) <$> amphorae),
       mkWorld (amphora_tbl w) (listener_tbl w) (loadbalancer_tbl w) tr).
Proof.
  induction amphorae as [|amp rest IH]; intros w; cbn [mapM].
  - exists (trace w). by destruct w.
  - destruct (IH (emit (AmphoraGet (Amphora.id amp)) w)) as [tr Htr].
    unfold bind at 1. unfold amphora_repo.get at 1.
    unfold bind at 1. rewrite Htr. by exists tr.
Qed.

(** ** AmpListenersUpdate *)

(** What [AmpListenersUpdate.execute] does once [amphora_index] names an
    entry of [amphorae]: it never raises, and the tables change exactly when
    the driver call raised, by the ERROR mark on that amphora. *)
Lemma AmpListenersUpdate_execute_run env loadbalancer amphora_index amphorae
    timeout_dict w amp :
  py_index amphorae amphora_index = Some amp ->
  exists tr,
    AmpListenersUpdate.execute env loadbalancer amphora_index amphorae
      timeout_dict w
    = (Returned tt,
       mkWorld
         (if is_raised
               (update_amphora_listeners (amphora_driver env)
                  (lookup_loadbalancer w (loadbalancer_id loadbalancer))
                  (lookup_amphora w (Amphora.id amp)) timeout_dict)
          then alter (fun r => apply_change r (SetStatus constants.ERROR))
                     (Amphora.id amp) (amphora_tbl w)
          else amphora_tbl w)
         (listener_tbl w) (loadbalancer_tbl w) tr).
Proof.
  intros Hidx. unfold AmpListenersUpdate.execute, try_except.
  unfold bind at 1. destruct (mapM_amphora_get amphorae w) as [tr Htr].
  rewrite Htr. run_task. rewrite py_index_fmap, Hidx. simpl.
  rewrite (lookup_loadbalancer_same_tables w) by (by repeat split).
  destruct (update_amphora_listeners _ _ _ _) as [[]|e]; simpl.
  - eexists. reflexivity.
  - eexists. reflexivity.
Qed.


(** ** AmphoraUpdateVRRPInterface *)

(** The loop of [execute] over entries that are all amphorae: it never
    raises, it leaves listeners and load balancers alone, and the status of an
    amphora [j] ends as ERROR when the loop met a failing call for [j], and as
    it was otherwise. *)
Lemma execute_loop_status env timeout_dict db_amphorae :
  forall amps w,
    Forall is_Some db_amphorae ->
    exists amps' w',
      AmphoraUpdateVRRPInterface.execute_loop env timeout_dict db_amphorae
        amps w = (Returned amps', w') /\
      listener_tbl w' = listener_tbl w /\
      loadbalancer_tbl w' = loadbalancer_tbl w /\
      forall j,
        amphora_status w' j =
          if existsb (vrrp_fails env timeout_dict j) db_amphorae
          then (fun _ => constants.ERROR) <$> amphora_status w j
          else amphora_status w j.
Proof.
  induction db_amphorae as [|o rest IH]; intros amps w Hsome.
  - exists amps, w. by repeat split.
  - apply Forall_cons in Hsome as [[amp ->] Hsome].
    cbn [AmphoraUpdateVRRPInterface.execute_loop existsb vrrp_fails].
    unfold bind at 1. cbn [deref ret].
    destruct (bool_decide (Amphora.status amp = constants.AMPHORA_ALLOCATED)).
    2:{ destruct (IH amps w Hsome) as (amps' & w' & Hrun & Hl & Hb & Hst).
        exists amps', w'. repeat split; try done.
        intros j. rewrite Hst. by rewrite andb_false_r. }
    unfold bind at 1, try_except, bind at 1, call_driver.
    destruct (get_vrrp_interface (amphora_driver env) amp timeout_dict)
      as [interface|e]; cbn [is_raised ret].
    + unfold bind at 1, amphora_repo.update at 1.
      unfold bind at 1, amphora_repo.get at 1.
      match goal with
      | |- context [AmphoraUpdateVRRPInterface.execute_loop _ _ _ ?a ?w1] =>
          destruct (IH a w1 Hsome) as (amps' & w' & Hrun & Hl & Hb & Hst)
      end.
      exists amps', w'. repeat split; try done.
      intros j. rewrite Hst, andb_false_r. simpl.
      unfold amphora_status. simpl. rewrite lookup_alter.
      case_decide; [|reflexivity]. subst j.
      by destruct (amphora_tbl w !! Amphora.id amp).
    + unfold bind at 1, LOG, tell, bind at 1, amphora_repo.update at 1, ret.
      match goal with
      | |- context [AmphoraUpdateVRRPInterface.execute_loop _ _ _ ?a ?w1] =>
          destruct (IH a w1 Hsome) as (amps' & w' & Hrun & Hl & Hb & Hst)
      end.
      exists amps', w'. repeat split; try done.
      intros j. rewrite Hst, andb_true_r. simpl.
      unfold amphora_status. simpl. rewrite lookup_alter.
      case_bool_decide as Hj; case_decide; try congruence; simpl.
      * subst j. destruct (existsb _ rest); by destruct (amphora_tbl w !! _).
      * reflexivity.
Qed.



(** C1: in both fan-out tasks, when the driver call of one target amphora
    raises (whatever the exception, a non-connectivity error in particular)
    and the calls of the other targets answer, [execute] returns, the status
    of that amphora becomes ERROR and the status of every other amphora is as
    before.  [AmpListenersUpdate] has one target, [amphorae[amphora_index]];
    [AmphoraUpdateVRRPInterface] has the allocated amphorae of the load
    balancer. *)
Theorem fan_out_one_target_fails env :
  (forall loadbalancer amphora_index amphorae timeout_dict w amp e,
      py_index amphorae amphora_index = Some amp ->
      is_Some (amphora_tbl w !! Amphora.id amp) ->
      update_amphora_listeners (amphora_driver env)
        (lookup_loadbalancer w (loadbalancer_id loadbalancer))
        (lookup_amphora w (Amphora.id amp)) timeout_dict = Raised e ->
      exists w',
        AmpListenersUpdate.execute env loadbalancer amphora_index amphorae
          timeout_dict w = (Returned tt, w') /\
        amphora_status w' (Amphora.id amp) = Some constants.ERROR /\
        forall j, j <> Amphora.id amp ->
                  amphora_status w' j = amphora_status w j) /\
  (forall P (to_dict : LoadBalancer.t -> P) loadbalancer w lb bad e,
      lookup_loadbalancer w (loadbalancer_id loadbalancer) = Some lb ->
      Some bad ∈ LoadBalancer.amphorae lb ->
      Amphora.status bad = constants.AMPHORA_ALLOCATED ->
      get_vrrp_interface (amphora_driver env) bad
        (AmphoraUpdateVRRPInterface.active_timeout_dict env) = Raised e ->
      (forall amp,
          Some amp ∈ LoadBalancer.amphorae lb ->
          Amphora.status amp = constants.AMPHORA_ALLOCATED ->
          amp <> bad ->
          exists interface,
            get_vrrp_interface (amphora_driver env) amp
              (AmphoraUpdateVRRPInterface.active_timeout_dict env)
            = Returned interface) ->
      exists r w',
        AmphoraUpdateVRRPInterface.execute to_dict env loadbalancer w
          = (Returned r, w') /\
        amphora_status w' (Amphora.id bad) = Some constants.ERROR /\
        forall j, j <> Amphora.id bad ->
                  amphora_status w' j = amphora_status w j).
Proof.
  split.
  - intros loadbalancer amphora_index amphorae timeout_dict w amp e
           Hidx [row Hrow] Hdrv.
    destruct (AmpListenersUpdate_execute_run env loadbalancer amphora_index
                amphorae timeout_dict w amp Hidx) as [tr Hrun].
    rewrite Hdrv in Hrun. simpl in Hrun.
    eexists. split; [exact Hrun|]. unfold amphora_status. simpl. split.
    + rewrite lookup_alter, decide_True by reflexivity. by rewrite Hrow.
    + intros j Hj. by rewrite lookup_alter_ne.
  - intros P to_dict loadbalancer w lb bad e Hlb Hbad Halloc Hdrv Hothers.
    pose proof (lookup_loadbalancer_amphorae _ _ _ Hlb) as Hamps.
    unfold AmphoraUpdateVRRPInterface.execute.
    unfold bind at 1, loadbalancer_repo.get at 1. rewrite Hlb.
    unfold bind at 1. cbn [deref ret].
    destruct (execute_loop_status env
                (AmphoraUpdateVRRPInterface.active_timeout_dict env)
                (LoadBalancer.amphorae lb) []
                (emit (LoadBalancerGet (loadbalancer_id loadbalancer)) w))
      as (amps' & w' & Hrun & _ & _ & Hst).
    { rewrite Hamps. apply amphorae_of_all_some. }
    unfold bind at 1. rewrite Hrun. eexists _, w'. split; [reflexivity|].
    split.
    + rewrite Hst.
      assert (Hex : existsb
                (vrrp_fails env
                   (AmphoraUpdateVRRPInterface.active_timeout_dict env)
                   (Amphora.id bad)) (LoadBalancer.amphorae lb) = true).
      { apply existsb_exists. exists (Some bad). split.
        - by apply list_elem_of_In.
        - simpl. rewrite Hdrv. simpl.
          by rewrite !bool_decide_eq_true_2. }
      rewrite Hex. rewrite Hamps in Hbad.
      apply amphorae_of_elem in Hbad as (b & [= <-] & Hrow & _).
      apply lookup_amphora_row in Hrow as [row Hrow].
      unfold amphora_status. simpl. by rewrite Hrow.
    + intros j Hj. rewrite Hst.
      assert (Hex : existsb
                (vrrp_fails env
                   (AmphoraUpdateVRRPInterface.active_timeout_dict env) j)
                (LoadBalancer.amphorae lb) = false).
      { apply not_true_is_false. intros Hex.
        apply existsb_exists in Hex as ([amp|] & Hin & Hfail); [|done].
        apply list_elem_of_In in Hin. simpl in Hfail.
        apply andb_true_iff in Hfail as [Hfail Hraised].
        apply andb_true_iff in Hfail as [Hid Hst'].
        apply bool_decide_eq_true in Hid, Hst'.
        destruct (Hothers amp Hin Hst') as [interface Hok].
        - intros ->. by apply Hj.
        - by rewrite Hok in Hraised. }
      rewrite Hex. reflexivity.
Qed.


Lemma fan_out_one_target_fails_witness :
  (exists w',
      AmpListenersUpdate.execute example_env {| loadbalancer_id := "lb-1" |} 1
        [amp1; amp2] None example_world = (Returned tt, w') /\
      amphora_status w' "amp-2" = Some "ERROR" /\
      forall j, j <> "amp-2" ->
                amphora_status w' j = amphora_status example_world j) /\
  (exists r w',
      AmphoraUpdateVRRPInterface.execute (fun lb => lb) example_env
        {| loadbalancer_id := "lb-1" |} example_world = (Returned r, w') /\
      amphora_status w' "amp-2" = Some "ERROR" /\
      forall j, j <> "amp-2" ->
                amphora_status w' j = amphora_status example_world j).
Proof.
  split.
  - apply (proj1 (fan_out_one_target_fails example_env)
             {| loadbalancer_id := "lb-1" |} 1 [amp1; amp2] None example_world
             amp2 (Exn OtherException "Internal Server Error")).
    + reflexivity.
    + vm_compute. by eexists.
    + vm_compute. reflexivity.
  - apply (proj2 (fan_out_one_target_fails example_env)
             LoadBalancer.t (fun lb => lb) {| loadbalancer_id := "lb-1" |}
             example_world example_lb amp2
             (Exn OtherException "Internal Server Error")).
    + vm_compute. reflexivity.
    + apply list_elem_of_further, list_elem_of_here.
    + reflexivity.
    + reflexivity.
    + intros amp Hin _ Hne. exists (Some "eth1").
      apply elem_of_cons in Hin as [[= ->] | Hin]; [reflexivity|].
      apply elem_of_cons in Hin as [[= ->] | Hin]; [done|].
      by apply elem_of_nil in Hin.
Defined.

(** C5, as stated, fails for [AmpListenersUpdate]: the lookup of the load
    balancer sits inside the [try].  With no load balancer [lb-404] in the
    store the driver trips over [None], the handler catches it, [execute]
    returns and [amp-1] goes from ALLOCATED to ERROR. *)
Lemma AmpListenersUpdate_execute_catches_missing_load_balancer :
  lookup_loadbalancer example_world "lb-404" = None /\
  amphora_status example_world "amp-1" = Some "ALLOCATED" /\
  fst (AmpListenersUpdate.execute example_env {| loadbalancer_id := "lb-404" |}
         0 [amp1; amp2] None example_world) = Returned tt /\
  amphora_status
    (snd (AmpListenersUpdate.execute example_env
            {| loadbalancer_id := "lb-404" |} 0 [amp1; amp2] None
            example_world)) "amp-1" = Some "ERROR".
Proof. repeat split; vm_compute; reflexivity. Qed.

(** C5 (amended): [AmphoraUpdateVRRPInterface.execute] raises exactly when
    the load balancer is not found: the lookup is outside the per-amphora
    [try], the error propagates and no row is touched.
    [AmpListenersUpdate.execute] holds the lookups and the driver call in one
    [try]: once [amphora_index] names an amphora it never raises, whatever the
    lookup of the load balancer gave, and any exception of the driver call
    ends as the ERROR status of that amphora; it raises only from its handler,
    when [amphora_index] is out of range. *)
Theorem fan_out_load_balancer_lookup env :
  (forall P (to_dict : LoadBalancer.t -> P) loadbalancer w,
      lookup_loadbalancer w (loadbalancer_id loadbalancer) = None ->
      exists e,
        AmphoraUpdateVRRPInterface.execute to_dict env loadbalancer w
        = (Raised e, emit (LoadBalancerGet (loadbalancer_id loadbalancer)) w)) /\
  (forall P (to_dict : LoadBalancer.t -> P) loadbalancer w lb,
      lookup_loadbalancer w (loadbalancer_id loadbalancer) = Some lb ->
      exists r w',
        AmphoraUpdateVRRPInterface.execute to_dict env loadbalancer w
        = (Returned r, w')) /\
  (forall loadbalancer amphora_index amphorae timeout_dict w amp,
      py_index amphorae amphora_index = Some amp ->
      exists w',
        AmpListenersUpdate.execute env loadbalancer amphora_index amphorae
          timeout_dict w = (Returned tt, w') /\
        forall e,
          update_amphora_listeners (amphora_driver env)
            (lookup_loadbalancer w (loadbalancer_id loadbalancer))
            (lookup_amphora w (Amphora.id amp)) timeout_dict = Raised e ->
          is_Some (amphora_tbl w !! Amphora.id amp) ->
          amphora_status w' (Amphora.id amp) = Some constants.ERROR) /\
  (forall loadbalancer amphora_index amphorae timeout_dict w,
      py_index amphorae amphora_index = None ->
      exists e w',
        AmpListenersUpdate.execute env loadbalancer amphora_index amphorae
          timeout_dict w = (Raised e, w') /\
        exn_cls e = IndexError /\
        same_tables w w').
Proof.
  repeat apply conj.
  - intros P to_dict loadbalancer w Hlb.
    unfold AmphoraUpdateVRRPInterface.execute.
    unfold bind at 1, loadbalancer_repo.get at 1. rewrite Hlb.
    unfold bind at 1. cbn [deref raise]. by eexists.
  - intros P to_dict loadbalancer w lb Hlb.
    unfold AmphoraUpdateVRRPInterface.execute.
    unfold bind at 1, loadbalancer_repo.get at 1. rewrite Hlb.
    unfold bind at 1. cbn [deref ret].
    destruct (execute_loop_status env
                (AmphoraUpdateVRRPInterface.active_timeout_dict env)
                (LoadBalancer.amphorae lb) []
                (emit (LoadBalancerGet (loadbalancer_id loadbalancer)) w))
      as (amps' & w' & Hrun & _).
    { rewrite (lookup_loadbalancer_amphorae _ _ _ Hlb).
      apply amphorae_of_all_some. }
    unfold bind at 1. rewrite Hrun. by eexists _, w'.
  - intros loadbalancer amphora_index amphorae timeout_dict w amp Hidx.
    destruct (AmpListenersUpdate_execute_run env loadbalancer amphora_index
                amphorae timeout_dict w amp Hidx) as [tr Hrun].
    eexists. split; [exact Hrun|]. intros e Hdrv [row Hrow].
    rewrite Hdrv. unfold amphora_status. simpl.
    rewrite lookup_alter, decide_True by reflexivity. by rewrite Hrow.
  - intros loadbalancer amphora_index amphorae timeout_dict w Hidx.
    unfold AmpListenersUpdate.execute, try_except.
    unfold bind at 1. destruct (mapM_amphora_get amphorae w) as [tr Htr].
    rewrite Htr. run_task. rewrite py_index_fmap, Hidx. simpl.
    eexists _, _. split; [reflexivity|]. by repeat split.
Qed.

Lemma fan_out_load_balancer_lookup_witness :
  (exists e,
      AmphoraUpdateVRRPInterface.execute (fun lb => lb) example_env
        {| loadbalancer_id := "lb-404" |} example_world
      = (Raised e, emit (LoadBalancerGet "lb-404") example_world)) /\
  (exists w',
      AmpListenersUpdate.execute example_env {| loadbalancer_id := "lb-404" |}
        0 [amp1; amp2] None example_world = (Returned tt, w') /\
      amphora_status w' "amp-1" = Some "ERROR").
Proof.
  pose proof (fan_out_load_balancer_lookup example_env)
    as (Hmissing & _ & Hlisteners & _).
  split.
  - apply (Hmissing LoadBalancer.t (fun lb => lb)
             {| loadbalancer_id := "lb-404" |} example_world).
    vm_compute. reflexivity.
  - destruct (Hlisteners {| loadbalancer_id := "lb-404" |} 0 [amp1; amp2] None
                example_world amp1 eq_refl) as (w' & Hrun & Herror).
    exists w'. split; [exact Hrun|].
    apply (Herror (Exn AttributeError
                       "'NoneType' object has no attribute 'listeners'")).
    + vm_compute. reflexivity.
    + vm_compute. by eexists.
Defined.






(** * Further properties *)

(** ** AmpRetry *)

Lemma on_failure_loop_closed n max items :
  AmpRetry.on_failure_loop n max items =
    if (n <=? max) && existsb retryable items then retry.RETRY
    else retry.REVERT_ALL.
Proof.
  destruct (Z.leb_spec n max) as [Hle | Hgt]; simpl.
  - induction items as [|[task_name ex_info] rest IH]; simpl; [reflexivity|].
    destruct (Z.leb_spec n max); [|lia]. unfold retryable at 1. simpl.
    destruct ex_info as [[[excp|]]|]; simpl; try reflexivity.
    destruct (isinstance excp AmpConnectionRetry); simpl; [reflexivity | exact IH].
  - by apply on_failure_loop_exhausted.
Qed.

(** X1: for a non-empty history the decision of [AmpRetry.on_failure] has a
    closed form: RETRY when the history holds at most [connection_max_retries]
    attempts and some entry of the last attempt is retryable (no failure
    information, or an [AmpConnectionRetry]); REVERT_ALL otherwise.  It is
    never REVERT. *)
Theorem on_failure_decision CONF (history : list history_entry) n last_errors :
  last history = Some (n, last_errors) ->
  AmpRetry.on_failure CONF history =
    Returned
      (if (Z.of_nat (length history)
             <=? connection_max_retries (haproxy_amphora CONF))
          && existsb retryable last_errors
       then retry.RETRY else retry.REVERT_ALL) /\
  AmpRetry.on_failure CONF history <> Returned retry.REVERT.
Proof.
  intros Hlast. unfold AmpRetry.on_failure. rewrite Hlast.
  rewrite on_failure_loop_closed. split; [reflexivity|].
  by destruct (_ && _).
Qed.

Lemma on_failure_decision_witness :
  AmpRetry.on_failure example_conf history_restored
    = Returned
        (if (Z.of_nat (length history_restored)
               <=? connection_max_retries (haproxy_amphora example_conf))
            && existsb retryable [("amp-wait", None)]
         then retry.RETRY else retry.REVERT_ALL) /\
  AmpRetry.on_failure example_conf history_restored <> Returned retry.REVERT.
Proof.
  exact (on_failure_decision example_conf history_restored 2
           [("amp-wait", None)] eq_refl).
Defined.

Lemma existsb_Permutation {A} (f : A -> bool) (l l' : list A) :
  l ≡ₚ l' -> existsb f l = existsb f l'.
Proof.
  induction 1 as [|x l l' _ IH|x y l|l l' l'' _ IH1 _ IH2]; simpl.
  - reflexivity.
  - by rewrite IH.
  - by rewrite !orb_assoc, (orb_comm (f y)).
  - congruence.
Qed.

(** X2: the decision depends on the history only through its length and the
    set of failures of the last attempt: the order in which the dict of
    failures is walked, the value recorded for the attempt and the content of
    the earlier attempts do not matter. *)
Theorem on_failure_order_independent CONF (earlier earlier' : list history_entry)
    n n' last_errors last_errors' :
  length earlier = length earlier' ->
  last_errors ≡ₚ last_errors' ->
  AmpRetry.on_failure CONF (earlier ++ [(n, last_errors)]) =
  AmpRetry.on_failure CONF (earlier' ++ [(n', last_errors')]).
Proof.
  intros Hlen Hperm.
  unfold AmpRetry.on_failure. rewrite !last_snoc, !length_app, Hlen.
  rewrite !on_failure_loop_closed.
  by rewrite (existsb_Permutation _ _ _ Hperm).
Qed.

Lemma on_failure_order_independent_witness :
  AmpRetry.on_failure example_conf
    ([] ++ [(1, [("a", Some generic_failure); ("b", Some connection_failure)])])
  = AmpRetry.on_failure example_conf
      ([] ++ [(7, [("b", Some connection_failure); ("a", Some generic_failure)])]).
Proof.
  apply (on_failure_order_independent example_conf [] [] 1 7).
  - reflexivity.
  - apply Permutation_swap.
Defined.

(** X3: raising [connection_max_retries] never turns a retry into an abort:
    a history on which [on_failure] decides RETRY under one configuration
    gets RETRY under every configuration with a larger bound. *)
Theorem on_failure_monotone CONF CONF' (history : list history_entry) :
  connection_max_retries (haproxy_amphora CONF)
    <= connection_max_retries (haproxy_amphora CONF') ->
  AmpRetry.on_failure CONF history = Returned retry.RETRY ->
  AmpRetry.on_failure CONF' history = Returned retry.RETRY.
Proof.
  intros Hle. unfold AmpRetry.on_failure.
  destruct (last history) as [[n last_errors]|]; [|done].
  rewrite !on_failure_loop_closed.
  destruct (existsb retryable last_errors); rewrite ?andb_false_r; [|done].
  rewrite !andb_true_r.
  destruct (Z.leb_spec (Z.of_nat (length history))
              (connection_max_retries (haproxy_amphora CONF))); [|done].
  destruct (Z.leb_spec (Z.of_nat (length history))
              (connection_max_retries (haproxy_amphora CONF'))); [done | lia].
Qed.

Lemma on_failure_monotone_witness :
  AmpRetry.on_failure
    {| haproxy_amphora :=
         {| connection_max_retries := 5;
            active_connection_max_retries := 3;
            active_connection_rety_interval := 2 |};
       controller_worker := {| loadbalancer_topology := "SINGLE" |} |}
    [(1, [("amp-wait", Some connection_failure)])] = Returned retry.RETRY.
Proof.
  apply (on_failure_monotone example_conf).
  - simpl. lia.
  - reflexivity.
Defined.

(** ** Tables after a run of updates *)

Lemma lookup_foldl_alter {V} (f : V -> V) (ks : list string) :
  (forall r, f (f r) = f r) ->
  forall (tbl : gmap string V) j,
    foldl (fun t k => alter f k t) tbl ks !! j =
      if decide (j ∈ ks) then f <$> tbl !! j else tbl !! j.
Proof.
  intros Hidem. induction ks as [|k ks IH]; intros tbl j; cbn [foldl].
  - case_decide as Hin; [by apply elem_of_nil in Hin | reflexivity].
  - rewrite IH, lookup_alter.
    destruct (decide (j ∈ ks)) as [Hin | Hnotin];
      destruct (decide (k = j)) as [-> | Hne];
      case_decide as Hcons; try reflexivity.
    + destruct (tbl !! j); simpl; by rewrite ?Hidem.
    + exfalso. apply Hcons, list_elem_of_here.
    + exfalso. by apply Hcons, list_elem_of_further.
    + exfalso. apply Hcons, list_elem_of_here.
    + apply elem_of_cons in Hcons as [?|?]; congruence.
Qed.

Lemma listeners_of_ids w lb_id j :
  j ∈ Listener.id <$> listeners_of w lb_id <->
  exists r, listener_tbl w !! j = Some r /\ ListenerRow.load_balancer_id r = lb_id.
Proof.
  unfold listeners_of. rewrite <- list_fmap_compose. split.
  - intros ([k r] & -> & Hin)%list_elem_of_fmap.
    apply list_elem_of_filter in Hin as [Hlb Hin].
    apply elem_of_map_to_list in Hin. by exists r.
  - intros (r & Hrow & Hlb). apply list_elem_of_fmap. exists (j, r).
    split; [reflexivity|]. apply list_elem_of_filter.
    split; [exact Hlb | by apply elem_of_map_to_list].
Qed.

Lemma allocated_ids_amphorae_of w lb_id j :
  j ∈ allocated_ids (amphorae_of w lb_id) <->
  exists r, amphora_tbl w !! j = Some r /\ allocated_of lb_id r = true.
Proof.
  unfold allocated_ids, amphorae_of, allocated_of.
  rewrite list_elem_of_omap. split.
  - intros (o & Hin & Hj).
    apply list_elem_of_fmap in Hin as ([k r] & -> & Hin).
    apply list_elem_of_filter in Hin as [Hlb Hin].
    apply elem_of_map_to_list in Hin. simpl in *.
    case_bool_decide as Hst; [|done]. injection Hj as <-.
    exists r. split; [exact Hin|].
    by rewrite !bool_decide_eq_true_2.
  - intros (r & Hrow & Halloc).
    apply andb_true_iff in Halloc as [Hlb Hst].
    apply bool_decide_eq_true in Hlb, Hst.
    exists (Some (Amphora.of_row j r)). split.
    + apply list_elem_of_fmap. exists (j, r). split; [reflexivity|].
      apply list_elem_of_filter. split; [exact Hlb | by apply elem_of_map_to_list].
    + simpl. by rewrite bool_decide_eq_true_2.
Qed.

Lemma forM_mark_listeners ls : forall w,
  exists tr,
    forM_ (fun listener =>
             task_utils.mark_listener_prov_status_error (Listener.id listener))
          ls w
    = (Returned tt,
       mkWorld (amphora_tbl w)
         (foldl (fun t k => alter listener_error_row k t) (listener_tbl w)
                (Listener.id <$> ls))
         (loadbalancer_tbl w) tr).
Proof.
  induction ls as [|l ls IH]; intros w; cbn [forM_].
  - exists (trace w). by destruct w.
  - unfold bind at 1, task_utils.mark_listener_prov_status_error at 1,
      listener_repo.update at 1.
    match goal with
    | |- context [forM_ _ ls ?w1] => destruct (IH w1) as [tr Htr]
    end.
    rewrite Htr. by exists tr.
Qed.

Lemma revert_loop_tbl db_amphorae : forall w,
  Forall is_Some db_amphorae ->
  exists tr,
    AmphoraePostNetworkPlug.revert_loop db_amphorae w
    = (Returned tt,
       mkWorld
         (foldl (fun t k => alter mark_error_row k t) (amphora_tbl w)
                (allocated_ids db_amphorae))
         (listener_tbl w) (loadbalancer_tbl w) tr).
Proof.
  induction db_amphorae as [|o rest IH]; intros w Hsome.
  - exists (trace w). by destruct w.
  - apply Forall_cons in Hsome as [[amp ->] Hsome].
    cbn [AmphoraePostNetworkPlug.revert_loop allocated_ids omap list_omap].
    unfold bind at 1. cbn [deref ret].
    destruct (bool_decide (Amphora.status amp = constants.AMPHORA_ALLOCATED)).
    + unfold bind at 1, task_utils.mark_amphora_status_error at 1,
        amphora_repo.update at 1.
      match goal with
      | |- context [AmphoraePostNetworkPlug.revert_loop rest ?w1] =>
          destruct (IH w1 Hsome) as [tr Htr]
      end.
      rewrite Htr. by exists tr.
    + apply (IH w Hsome).
Qed.

Lemma vrrp_revert_loop_tbl db_amphorae : forall w,
  Forall is_Some db_amphorae ->
  exists tr,
    AmphoraUpdateVRRPInterface_revert_loop db_amphorae w
    = (Returned tt,
       mkWorld
         (foldl (fun t k => alter clear_vrrp_row k t) (amphora_tbl w)
                (allocated_ids db_amphorae))
         (listener_tbl w) (loadbalancer_tbl w) tr).
Proof.
  induction db_amphorae as [|o rest IH]; intros w Hsome.
  - exists (trace w). by destruct w.
  - apply Forall_cons in Hsome as [[amp ->] Hsome].
    cbn [AmphoraUpdateVRRPInterface_revert_loop allocated_ids omap list_omap].
    unfold bind at 1. cbn [deref ret].
    destruct (bool_decide (Amphora.status amp = constants.AMPHORA_ALLOCATED)).
    + unfold bind at 1, try_except, amphora_repo.update at 1.
      match goal with
      | |- context [AmphoraUpdateVRRPInterface_revert_loop rest ?w1] =>
          destruct (IH w1 Hsome) as [tr Htr]
      end.
      rewrite Htr. by exists tr.
    + apply (IH w Hsome).
Qed.

Lemma lookup_loadbalancer_listeners w i lb :
  lookup_loadbalancer w i = Some lb -> LoadBalancer.listeners lb = listeners_of w i.
Proof.
  unfold lookup_loadbalancer. destruct (loadbalancer_tbl w !! i); simpl; [|done].
  intros [= <-]. reflexivity.
Qed.

Lemma listeners_marked_foldl lb_id w tr :
  listeners_marked lb_id w
    (mkWorld (amphora_tbl w)
       (foldl (fun t k => alter listener_error_row k t) (listener_tbl w)
              (Listener.id <$> listeners_of w lb_id))
       (loadbalancer_tbl w) tr).
Proof.
  repeat split. intros j. simpl.
  rewrite lookup_foldl_alter by done.
  destruct (listener_tbl w !! j) as [r|] eqn:Hrow; simpl.
  - case_decide as Hin; case_bool_decide as Hlb; try reflexivity.
    + apply listeners_of_ids in Hin as (r' & Hr' & Hlb'). congruence.
    + exfalso. apply Hin, listeners_of_ids. by exists r.
  - by case_decide.
Qed.

Lemma amphorae_rewritten_foldl f lb_id w tr :
  (forall r, f (f r) = f r) ->
  amphorae_rewritten f lb_id w
    (mkWorld
       (foldl (fun t k => alter f k t) (amphora_tbl w)
              (allocated_ids (amphorae_of w lb_id)))
       (listener_tbl w) (loadbalancer_tbl w) tr).
Proof.
  intros Hidem. repeat split. intros j. simpl.
  rewrite lookup_foldl_alter by done.
  destruct (amphora_tbl w !! j) as [r|] eqn:Hrow; simpl.
  - case_decide as Hin; destruct (allocated_of lb_id r) eqn:Halloc;
      try reflexivity.
    + apply allocated_ids_amphorae_of in Hin as (r' & Hr' & Halloc').
      congruence.
    + exfalso. apply Hin, allocated_ids_amphorae_of. by exists r.
  - by case_decide.
Qed.

(** ** Reverts of the listener tasks *)

(** X4: [ListenersUpdate.revert] and [ListenersStart.revert] set the
    provisioning status of every listener of the load balancer to ERROR and
    change nothing else: listeners of other load balancers, amphorae and load
    balancers stay as they are.  When the load balancer is not in the store
    they raise (attribute access on [None]) and change nothing. *)
Theorem listeners_revert_marks_all lb_id w :
  (forall lb,
      lookup_loadbalancer w lb_id = Some lb ->
      (exists w',
          ListenersUpdate.revert lb_id w = (Returned tt, w') /\
          listeners_marked lb_id w w') /\
      (exists w',
          ListenersStart.revert {| loadbalancer_id := lb_id |} w
            = (Returned tt, w') /\
          listeners_marked lb_id w w')) /\
  (lookup_loadbalancer w lb_id = None ->
   (exists e w',
       ListenersUpdate.revert lb_id w = (Raised e, w') /\
       exn_cls e = AttributeError /\ same_tables w w') /\
   (exists e w',
       ListenersStart.revert {| loadbalancer_id := lb_id |} w = (Raised e, w') /\
       exn_cls e = AttributeError /\ same_tables w w')).
Proof.
  split.
  - intros lb Hlb.
    pose proof (lookup_loadbalancer_listeners _ _ _ Hlb) as Hls.
    split.
    + unfold ListenersUpdate.revert.
      unfold bind at 1, LOG, tell, bind at 1, loadbalancer_repo.get at 1.
      rewrite (lookup_loadbalancer_same_tables w) by (by repeat split).
      rewrite Hlb. unfold bind at 1. cbn [deref ret]. rewrite Hls.
      match goal with
      | |- context [forM_ _ _ ?w1] =>
          destruct (forM_mark_listeners (listeners_of w lb_id) w1) as [tr Htr]
      end.
      rewrite Htr. eexists. split; [reflexivity|].
      apply (listeners_marked_foldl lb_id w tr).
    + unfold ListenersStart.revert.
      unfold bind at 1, LOG, tell, bind at 1, loadbalancer_repo.get at 1.
      cbn [loadbalancer_id].
      rewrite (lookup_loadbalancer_same_tables w) by (by repeat split).
      rewrite Hlb. unfold bind at 1. cbn [deref ret]. rewrite Hls.
      match goal with
      | |- context [forM_ _ _ ?w1] =>
          destruct (forM_mark_listeners (listeners_of w lb_id) w1) as [tr Htr]
      end.
      rewrite Htr. eexists. split; [reflexivity|].
      apply (listeners_marked_foldl lb_id w tr).
  - intros Hlb. split.
    + unfold ListenersUpdate.revert. run_task.
      rewrite (lookup_loadbalancer_same_tables w) by (by repeat split).
      rewrite Hlb. simpl. eexists _, _. by repeat split.
    + unfold ListenersStart.revert. run_task.
      rewrite (lookup_loadbalancer_same_tables w) by (by repeat split).
      rewrite Hlb. simpl. eexists _, _. by repeat split.
Qed.

Lemma listeners_revert_marks_all_witness :
  (exists w',
      ListenersUpdate.revert "lb-1" example_world = (Returned tt, w') /\
      listeners_marked "lb-1" example_world w') /\
  (exists w',
      ListenersStart.revert {| loadbalancer_id := "lb-1" |} example_world
        = (Returned tt, w') /\
      listeners_marked "lb-1" example_world w').
Proof.
  apply (proj1 (listeners_revert_marks_all "lb-1" example_world) example_lb).
  vm_compute. reflexivity.
Defined.

(** ** Reverts of the tasks over the amphorae of a load balancer *)

Lemma mark_error_row_idem r : mark_error_row (mark_error_row r) = mark_error_row r.
Proof. reflexivity. Qed.

Lemma clear_vrrp_row_idem r : clear_vrrp_row (clear_vrrp_row r) = clear_vrrp_row r.
Proof. reflexivity. Qed.

Lemma allocated_of_mark_error lb_id r : allocated_of lb_id (mark_error_row r) = false.
Proof.
  unfold allocated_of.
  rewrite (bool_decide_eq_false_2 (AmphoraRow.status (mark_error_row r) = _))
    by (cbv; discriminate).
  apply andb_false_r.
Qed.

(** X5: [AmphoraePostNetworkPlug.revert], called after a later task failed,
    sets every ALLOCATED amphora of the load balancer to ERROR and changes no
    other row, so that no amphora of the load balancer is ALLOCATED
    afterwards; handed the failure of its own [execute] it does nothing; when
    the load balancer is not in the store it raises and changes nothing. *)
Theorem AmphoraePostNetworkPlug_revert_spec {A} (a : A) (f : failure.Failure)
    loadbalancer w :
  AmphoraePostNetworkPlug.revert (Failed f : task_result A) loadbalancer w
    = (Returned tt, w) /\
  (forall lb,
      lookup_loadbalancer w (loadbalancer_id loadbalancer) = Some lb ->
      exists w',
        AmphoraePostNetworkPlug.revert (Result a) loadbalancer w
          = (Returned tt, w') /\
        amphorae_rewritten mark_error_row (loadbalancer_id loadbalancer) w w' /\
        forall j r, amphora_tbl w' !! j = Some r ->
                    allocated_of (loadbalancer_id loadbalancer) r = false) /\
  (lookup_loadbalancer w (loadbalancer_id loadbalancer) = None ->
   exists e w',
     AmphoraePostNetworkPlug.revert (Result a) loadbalancer w = (Raised e, w') /\
     exn_cls e = AttributeError /\ same_tables w w').
Proof.
  split; [reflexivity|]. split.
  - intros lb Hlb.
    pose proof (lookup_loadbalancer_amphorae _ _ _ Hlb) as Hamps.
    unfold AmphoraePostNetworkPlug.revert.
    unfold bind at 1, loadbalancer_repo.get at 1. rewrite Hlb.
    unfold bind at 1, LOG, tell, bind at 1. cbn [deref ret]. rewrite Hamps.
    match goal with
    | |- context [AmphoraePostNetworkPlug.revert_loop _ ?w1] =>
        destruct (revert_loop_tbl
                    (amphorae_of w (loadbalancer_id loadbalancer)) w1
                    (amphorae_of_all_some _ _)) as [tr Htr]
    end.
    rewrite Htr. eexists. split; [reflexivity|].
    pose proof (amphorae_rewritten_foldl mark_error_row
                  (loadbalancer_id loadbalancer) w tr mark_error_row_idem)
      as Hrw.
    split; [exact Hrw|]. intros j r Hr. destruct Hrw as (_ & _ & Hrows).
    rewrite Hrows in Hr. destruct (amphora_tbl w !! j) as [r0|]; [|done].
    simpl in Hr. injection Hr as <-.
    destruct (allocated_of _ r0) eqn:Halloc; [|exact Halloc].
    apply allocated_of_mark_error.
  - intros Hlb. unfold AmphoraePostNetworkPlug.revert. run_task.
    rewrite Hlb. simpl. eexists _, _. by repeat split.
Qed.

Lemma AmphoraePostNetworkPlug_revert_spec_witness :
  exists w',
    AmphoraePostNetworkPlug.revert (Result tt) {| loadbalancer_id := "lb-1" |}
      example_world = (Returned tt, w') /\
    amphorae_rewritten mark_error_row "lb-1" example_world w' /\
    forall j r, amphora_tbl w' !! j = Some r -> allocated_of "lb-1" r = false.
Proof.
  apply (proj1 (proj2 (AmphoraePostNetworkPlug_revert_spec tt generic_failure
                         {| loadbalancer_id := "lb-1" |} example_world))
           example_lb).
  vm_compute. reflexivity.
Defined.

(** [AmphoraUpdateVRRPInterface.revert] with a non-failure result, on a load
    balancer of the store. *)
Lemma AmphoraUpdateVRRPInterface_revert_run {A} (a : A) loadbalancer w lb :
  lookup_loadbalancer w (loadbalancer_id loadbalancer) = Some lb ->
  exists w',
    AmphoraUpdateVRRPInterface_revert (Result a) loadbalancer w
      = (Returned tt, w') /\
    amphorae_rewritten clear_vrrp_row (loadbalancer_id loadbalancer) w w' /\
    forall j, amphora_status w' j = amphora_status w j.
Proof.
  intros Hlb.
  pose proof (lookup_loadbalancer_amphorae _ _ _ Hlb) as Hamps.
  unfold AmphoraUpdateVRRPInterface_revert.
  unfold bind at 1, LOG, tell, bind at 1, loadbalancer_repo.get at 1.
  rewrite (lookup_loadbalancer_same_tables w) by (by repeat split).
  rewrite Hlb. unfold bind at 1. cbn [deref ret]. rewrite Hamps.
  match goal with
  | |- context [AmphoraUpdateVRRPInterface_revert_loop _ ?w1] =>
      destruct (vrrp_revert_loop_tbl
                  (amphorae_of w (loadbalancer_id loadbalancer)) w1
                  (amphorae_of_all_some _ _)) as [tr Htr]
  end.
  rewrite Htr. eexists. split; [reflexivity|].
  pose proof (amphorae_rewritten_foldl clear_vrrp_row
                (loadbalancer_id loadbalancer) w tr clear_vrrp_row_idem)
    as Hrw.
  split; [exact Hrw|]. intros j. destruct Hrw as (_ & _ & Hrows).
  unfold amphora_status. rewrite Hrows.
  destruct (amphora_tbl w !! j) as [r|]; [|reflexivity]. simpl.
  by destruct (allocated_of _ r).
Qed.

(** X6: [AmphoraUpdateVRRPInterface.revert], called after a later task
    failed, clears the [vrrp_interface] of every ALLOCATED amphora of the load
    balancer and changes nothing else: no status moves, and an amphora in
    ERROR keeps the interface it has.  Handed the failure of its own
    [execute] it does nothing. *)
Theorem AmphoraUpdateVRRPInterface_revert_spec {A} (a : A) (f : failure.Failure)
    loadbalancer w :
  AmphoraUpdateVRRPInterface_revert (Failed f : task_result A) loadbalancer w
    = (Returned tt, w) /\
  (forall lb,
      lookup_loadbalancer w (loadbalancer_id loadbalancer) = Some lb ->
      exists w',
        AmphoraUpdateVRRPInterface_revert (Result a) loadbalancer w
          = (Returned tt, w') /\
        amphorae_rewritten clear_vrrp_row (loadbalancer_id loadbalancer) w w' /\
        forall j, amphora_status w' j = amphora_status w j).
Proof.
  split; [reflexivity|].
  intros lb Hlb. by apply (AmphoraUpdateVRRPInterface_revert_run a _ _ lb).
Qed.

Lemma AmphoraUpdateVRRPInterface_revert_spec_witness :
  exists w',
    AmphoraUpdateVRRPInterface_revert (Result tt)
      {| loadbalancer_id := "lb-1" |} example_world = (Returned tt, w') /\
    amphorae_rewritten clear_vrrp_row "lb-1" example_world w' /\
    forall j, amphora_status w' j = amphora_status example_world j.
Proof.
  apply (proj2 (AmphoraUpdateVRRPInterface_revert_spec tt generic_failure
                  {| loadbalancer_id := "lb-1" |} example_world) example_lb).
  vm_compute. reflexivity.
Defined.

(** ** AmphoraUpdateVRRPInterface.execute, in full *)

Lemma amphorae_of_NoDup w i :
  NoDup ((fun o : option Amphora.t => Amphora.id <$> o) <$> amphorae_of w i).
Proof.
  unfold amphorae_of. rewrite <- list_fmap_compose.
  erewrite (list_fmap_ext _ (Some ∘ fst)); [|by intros ? []].
  rewrite list_fmap_compose. apply (NoDup_fmap_2 Some).
  eapply sublist_NoDup; [|apply fmap_sublist, sublist_filter].
  apply NoDup_fst_map_to_list.
Qed.

(** The loop over entries with pairwise distinct identifiers, each the
    snapshot of its row: the value it returns and the table it leaves. *)
Lemma execute_loop_full env db_amphorae :
  forall amps w,
    NoDup ((fun o : option Amphora.t => Amphora.id <$> o) <$> db_amphorae) ->
    (forall o, o ∈ db_amphorae ->
               exists amp, o = Some amp /\
                           lookup_amphora w (Amphora.id amp) = Some amp) ->
    exists tr,
      AmphoraUpdateVRRPInterface.execute_loop env
        (AmphoraUpdateVRRPInterface.active_timeout_dict env) db_amphorae amps w
      = (Returned (amps ++ vrrp_survivors env db_amphorae)%list,
         mkWorld (foldl (vrrp_step env) (amphora_tbl w) db_amphorae)
                 (listener_tbl w) (loadbalancer_tbl w) tr).
Proof.
  induction db_amphorae as [|o rest IH]; intros amps w Hnd Hrows.
  - exists (trace w). simpl. rewrite app_nil_r. by destruct w.
  - destruct (Hrows o (list_elem_of_here _ _)) as (amp & -> & Hrow).
    rewrite fmap_cons in Hnd. apply NoDup_cons in Hnd as [Hfresh Hnd].
    assert (Hother : forall o', o' ∈ rest ->
               exists amp', o' = Some amp' /\
                            lookup_amphora w (Amphora.id amp') = Some amp' /\
                            Amphora.id amp <> Amphora.id amp').
    { intros o' Hin.
      destruct (Hrows o' (list_elem_of_further _ _ _ Hin)) as (amp' & -> & Hrow').
      exists amp'. repeat split; [exact Hrow'|]. intros Heq. apply Hfresh.
      apply list_elem_of_fmap. exists (Some amp'). simpl. by rewrite Heq. }
    cbn [AmphoraUpdateVRRPInterface.execute_loop vrrp_survivors foldl vrrp_step].
    unfold bind at 1. cbn [deref ret].
    destruct (bool_decide (Amphora.status amp = constants.AMPHORA_ALLOCATED)).
    2:{ apply IH; [exact Hnd|]. intros o' Hin.
        destruct (Hother o' Hin) as (amp' & -> & Hrow' & _). by exists amp'. }
    unfold bind at 1, try_except, bind at 1, call_driver. unfold vrrp_row.
    destruct (get_vrrp_interface (amphora_driver env) amp
                (AmphoraUpdateVRRPInterface.active_timeout_dict env))
      as [interface|e]; cbn [ret].
    + unfold bind at 1, amphora_repo.update at 1.
      unfold bind at 1, amphora_repo.get at 1.
      match goal with
      | |- context [AmphoraUpdateVRRPInterface.execute_loop _ _ _ ?a ?w1] =>
          destruct (IH a w1 Hnd) as [tr Htr]
      end.
      { intros o' Hin. destruct (Hother o' Hin) as (amp' & -> & Hrow' & Hne).
        exists amp'. split; [reflexivity|]. unfold lookup_amphora in *. simpl.
        by rewrite lookup_alter_ne. }
      rewrite Htr. exists tr. simpl. f_equal. f_equal.
      rewrite <- app_assoc. simpl. do 3 f_equal.
      unfold lookup_amphora in *. simpl. rewrite lookup_alter, decide_True by done.
      destruct (amphora_tbl w !! Amphora.id amp) as [r|]; [|done].
      simpl in *. injection Hrow as <-. reflexivity.
    + unfold bind at 1, LOG, tell, bind at 1, amphora_repo.update at 1, ret.
      match goal with
      | |- context [AmphoraUpdateVRRPInterface.execute_loop _ _ _ ?a ?w1] =>
          destruct (IH a w1 Hnd) as [tr Htr]
      end.
      { intros o' Hin. destruct (Hother o' Hin) as (amp' & -> & Hrow' & Hne).
        exists amp'. split; [reflexivity|]. unfold lookup_amphora in *. simpl.
        by rewrite lookup_alter_ne. }
      rewrite Htr. by exists tr.
Qed.

Lemma foldl_vrrp_step_other env db_amphorae : forall tbl j,
  (forall amp, Some amp ∈ db_amphorae -> Amphora.id amp <> j) ->
  foldl (vrrp_step env) tbl db_amphorae !! j = tbl !! j.
Proof.
  induction db_amphorae as [|o rest IH]; intros tbl j Hne; [reflexivity|].
  cbn [foldl]. rewrite IH.
  - destruct o as [amp|]; [|reflexivity]. simpl. case_bool_decide; [|reflexivity].
    apply lookup_alter_ne, Hne, list_elem_of_here.
  - intros amp Hin. by apply Hne, list_elem_of_further.
Qed.

Lemma foldl_vrrp_step_here env db_amphorae : forall tbl amp,
  NoDup ((fun o : option Amphora.t => Amphora.id <$> o) <$> db_amphorae) ->
  Some amp ∈ db_amphorae ->
  foldl (vrrp_step env) tbl db_amphorae !! Amphora.id amp =
    (fun r => if bool_decide (Amphora.status amp = constants.AMPHORA_ALLOCATED)
              then vrrp_row env amp r else r) <$> tbl !! Amphora.id amp.
Proof.
  induction db_amphorae as [|o rest IH]; intros tbl amp Hnd Hin.
  - by apply elem_of_nil in Hin.
  - rewrite fmap_cons in Hnd. apply NoDup_cons in Hnd as [Hfresh Hnd].
    cbn [foldl]. apply elem_of_cons in Hin as [<- | Hin].
    + rewrite foldl_vrrp_step_other.
      * simpl. case_bool_decide.
        -- by rewrite lookup_alter, decide_True.
        -- by destruct (tbl !! Amphora.id amp).
      * intros amp' Hin' Heq. apply Hfresh. apply list_elem_of_fmap.
        exists (Some amp'). simpl. by rewrite Heq.
    + rewrite (IH _ _ Hnd Hin). destruct o as [amp'|]; [|reflexivity].
      simpl.
      destruct (bool_decide (Amphora.status amp' = constants.AMPHORA_ALLOCATED));
        [|reflexivity].
      rewrite lookup_alter_ne; [reflexivity|]. intros Heq. apply Hfresh.
      apply list_elem_of_fmap. exists (Some amp). simpl. by rewrite Heq.
Qed.

(** [AmphoraUpdateVRRPInterface.execute] on a load balancer of the store:
    the value it returns and the tables it leaves. *)
Lemma AmphoraUpdateVRRPInterface_execute_full {P} (to_dict : LoadBalancer.t -> P)
    env loadbalancer w lb :
  lookup_loadbalancer w (loadbalancer_id loadbalancer) = Some lb ->
  exists w',
    AmphoraUpdateVRRPInterface.execute to_dict env loadbalancer w
      = (Returned
           (to_dict (LoadBalancer.set_amphorae
                       (vrrp_survivors env (LoadBalancer.amphorae lb)) lb)),
         w') /\
    listener_tbl w' = listener_tbl w /\
    loadbalancer_tbl w' = loadbalancer_tbl w /\
    forall j,
      amphora_tbl w' !! j =
        (fun r => if allocated_of (loadbalancer_id loadbalancer) r
                  then vrrp_row env (Amphora.of_row j r) r else r)
          <$> amphora_tbl w !! j.
Proof.
  intros Hlb. pose proof (lookup_loadbalancer_amphorae _ _ _ Hlb) as Hamps.
  unfold AmphoraUpdateVRRPInterface.execute.
  unfold bind at 1, loadbalancer_repo.get at 1. rewrite Hlb.
  unfold bind at 1. cbn [deref ret]. rewrite Hamps. unfold bind at 1.
  match goal with
  | |- context [AmphoraUpdateVRRPInterface.execute_loop _ _ _ ?a ?w1] =>
      destruct (execute_loop_full env
                  (amphorae_of w (loadbalancer_id loadbalancer)) a w1
                  (amphorae_of_NoDup _ _)) as [tr Htr]
  end.
  { intros o Hin. apply amphorae_of_elem in Hin as (amp & -> & Hrow & _).
    by exists amp. }
  rewrite Htr. eexists. split; [reflexivity|].
  simpl. repeat split. intros j.
  destruct (amphora_tbl w !! j) as [r|] eqn:Hrow; simpl.
  - destruct (decide (AmphoraRow.load_balancer_id r
                      = Some (loadbalancer_id loadbalancer))) as [Hown | Hnot].
    + assert (Hin : Some (Amphora.of_row j r)
                    ∈ amphorae_of w (loadbalancer_id loadbalancer)).
      { unfold amphorae_of. apply list_elem_of_fmap. exists (j, r).
        split; [reflexivity|]. apply list_elem_of_filter.
        split; [exact Hown | by apply elem_of_map_to_list]. }
      pose proof (foldl_vrrp_step_here env _ (amphora_tbl w) _
                    (amphorae_of_NoDup _ _) Hin) as Hhere.
      simpl in Hhere. rewrite Hhere, Hrow. simpl. unfold allocated_of.
      rewrite (bool_decide_eq_true_2 _ Hown). reflexivity.
    + rewrite foldl_vrrp_step_other.
      * rewrite Hrow. unfold allocated_of.
        by rewrite (bool_decide_eq_false_2 _ Hnot).
      * intros amp Hin Hid.
        apply amphorae_of_elem in Hin as (amp' & Heq & Hsnap & Hown).
        injection Heq as Heq. subst amp' j.
        unfold lookup_amphora in Hsnap. rewrite Hrow in Hsnap.
        simpl in Hsnap. injection Hsnap as Hsnap. apply Hnot.
        by rewrite <- Hsnap in Hown.
  - rewrite foldl_vrrp_step_other; [exact Hrow|].
    intros amp Hin Hid.
    apply amphorae_of_elem in Hin as (amp' & Heq & Hsnap & _).
    injection Heq as Heq. subst amp' j.
    unfold lookup_amphora in Hsnap. by rewrite Hrow in Hsnap.
Qed.

Lemma vrrp_survivors_elem env db_amphorae x :
  x ∈ vrrp_survivors env db_amphorae <->
  exists amp interface,
    Some amp ∈ db_amphorae /\
    Amphora.status amp = constants.AMPHORA_ALLOCATED /\
    get_vrrp_interface (amphora_driver env) amp
      (AmphoraUpdateVRRPInterface.active_timeout_dict env) = Returned interface /\
    x = Some (Amphora.mk (Amphora.id amp) (Amphora.compute_id amp)
                (Amphora.status amp) interface (Amphora.load_balancer_id amp)).
Proof.
  induction db_amphorae as [|o rest IH]; simpl.
  - split; [by intros ?%elem_of_nil|].
    by intros (? & ? & ?%elem_of_nil & _).
  - assert (Hskip : x ∈ vrrp_survivors env rest ->
              exists amp interface,
                Some amp ∈ o :: rest /\
                Amphora.status amp = constants.AMPHORA_ALLOCATED /\
                get_vrrp_interface (amphora_driver env) amp
                  (AmphoraUpdateVRRPInterface.active_timeout_dict env)
                  = Returned interface /\
                x = Some (Amphora.mk (Amphora.id amp) (Amphora.compute_id amp)
                            (Amphora.status amp) interface
                            (Amphora.load_balancer_id amp))).
    { intros (amp & i & Hin & Hprops)%IH. exists amp, i.
      split; [by apply list_elem_of_further | exact Hprops]. }
    destruct o as [amp0|].
    2:{ split; [exact Hskip|].
        intros (amp & i & [?|Hin]%elem_of_cons & Hprops); [done|].
        apply IH. by exists amp, i. }
    case_bool_decide as Halloc.
    2:{ split; [exact Hskip|].
        intros (amp & i & [Heq|Hin]%elem_of_cons & Hst & Hprops).
        - injection Heq as ->. done.
        - apply IH. by exists amp, i. }
    destruct (get_vrrp_interface (amphora_driver env) amp0 _)
      as [i0|e] eqn:Hdrv.
    + split.
      * intros [-> | Hin]%elem_of_cons; [|by apply Hskip].
        exists amp0, i0. split; [apply list_elem_of_here | done].
      * intros (amp & i & [Heq|Hin]%elem_of_cons & Hst & Hok & ->).
        -- injection Heq as ->. rewrite Hdrv in Hok. injection Hok as ->.
           apply list_elem_of_here.
        -- apply list_elem_of_further, IH. by exists amp, i.
    + split; [exact Hskip|].
      intros (amp & i & [Heq|Hin]%elem_of_cons & Hst & Hok & ->).
      * injection Heq as ->. by rewrite Hdrv in Hok.
      * apply IH. by exists amp, i.
Qed.

Lemma vrrp_survivors_sublist env db_amphorae :
  ((fun o : option Amphora.t => Amphora.id <$> o)
     <$> vrrp_survivors env db_amphorae)
  `sublist_of`
  ((fun o : option Amphora.t => Amphora.id <$> o) <$> db_amphorae).
Proof.
  induction db_amphorae as [|o rest IH]; simpl; [constructor|].
  destruct o as [amp|]; [|by apply sublist_cons].
  case_bool_decide; [|by apply sublist_cons].
  destruct (get_vrrp_interface _ _ _); [|by apply sublist_cons].
  rewrite fmap_cons. by apply sublist_skip.
Qed.

(** X7: on a load balancer of the store [AmphoraUpdateVRRPInterface.execute]
    hands to the provider conversion, whose result it returns, the load
    balancer read from the store with its amphora collection replaced by the
    list [vrrp_survivors]: the ALLOCATED amphorae whose [get_vrrp_interface]
    answered, each carrying the interface it gave, and nothing else; the
    list follows the order of the load balancer's amphorae and holds no
    amphora twice. *)
Theorem AmphoraUpdateVRRPInterface_execute_returns {P}
    (to_dict : LoadBalancer.t -> P) env loadbalancer w lb :
  lookup_loadbalancer w (loadbalancer_id loadbalancer) = Some lb ->
  fst (AmphoraUpdateVRRPInterface.execute to_dict env loadbalancer w)
    = Returned
        (to_dict
           (LoadBalancer.mk (LoadBalancer.id lb)
              (LoadBalancer.provisioning_status lb) (LoadBalancer.topology lb)
              (LoadBalancer.listeners lb)
              (vrrp_survivors env (LoadBalancer.amphorae lb)))) /\
  (forall x,
      x ∈ vrrp_survivors env (LoadBalancer.amphorae lb) <->
      exists amp interface,
        Some amp ∈ LoadBalancer.amphorae lb /\
        Amphora.status amp = constants.AMPHORA_ALLOCATED /\
        get_vrrp_interface (amphora_driver env) amp
          (AmphoraUpdateVRRPInterface.active_timeout_dict env)
          = Returned interface /\
        x = Some (Amphora.mk (Amphora.id amp) (Amphora.compute_id amp)
                    (Amphora.status amp) interface
                    (Amphora.load_balancer_id amp))) /\
  ((fun o : option Amphora.t => Amphora.id <$> o)
     <$> vrrp_survivors env (LoadBalancer.amphorae lb))
    `sublist_of`
    ((fun o : option Amphora.t => Amphora.id <$> o) <$> LoadBalancer.amphorae lb) /\
  NoDup ((fun o : option Amphora.t => Amphora.id <$> o)
           <$> vrrp_survivors env (LoadBalancer.amphorae lb)).
Proof.
  intros Hlb.
  destruct (AmphoraUpdateVRRPInterface_execute_full to_dict env loadbalancer w
              lb Hlb) as (w' & Hrun & _).
  rewrite Hrun. unfold LoadBalancer.set_amphorae.
  split; [reflexivity|]. split; [intros x; apply vrrp_survivors_elem|].
  split; [apply vrrp_survivors_sublist|].
  eapply sublist_NoDup; [|apply vrrp_survivors_sublist].
  rewrite (lookup_loadbalancer_amphorae _ _ _ Hlb). apply amphorae_of_NoDup.
Qed.

Lemma AmphoraUpdateVRRPInterface_execute_returns_witness :
  fst (AmphoraUpdateVRRPInterface.execute (fun lb => lb) example_env
         {| loadbalancer_id := "lb-1" |} example_world)
    = Returned
        (LoadBalancer.mk "lb-1" "ACTIVE" "ACTIVE_STANDBY"
           [Listener.mk "listener-1" "ACTIVE"]
           [Some (Amphora.mk "amp-1" (Some "vm-1") "ALLOCATED" (Some "eth1")
                    (Some "lb-1"))]).
Proof.
  exact (proj1 (AmphoraUpdateVRRPInterface_execute_returns (fun lb => lb)
                  example_env {| loadbalancer_id := "lb-1" |} example_world
                  example_lb eq_refl)).
Defined.

(** X8: what [AmphoraUpdateVRRPInterface.execute] leaves in the store: the
    row of each ALLOCATED amphora of the load balancer gets the discovered
    interface, or the ERROR status when the call raised; every other row
    (amphorae in another status, amphorae of other load balancers), every
    listener and every load balancer is as before. *)
Theorem AmphoraUpdateVRRPInterface_execute_store {P}
    (to_dict : LoadBalancer.t -> P) env loadbalancer w lb :
  lookup_loadbalancer w (loadbalancer_id loadbalancer) = Some lb ->
  exists r w',
    AmphoraUpdateVRRPInterface.execute to_dict env loadbalancer w
      = (Returned r, w') /\
    listener_tbl w' = listener_tbl w /\
    loadbalancer_tbl w' = loadbalancer_tbl w /\
    forall j,
      amphora_tbl w' !! j =
        (fun r => if allocated_of (loadbalancer_id loadbalancer) r
                  then vrrp_row env (Amphora.of_row j r) r else r)
          <$> amphora_tbl w !! j.
Proof.
  intros Hlb.
  destruct (AmphoraUpdateVRRPInterface_execute_full to_dict env loadbalancer w
              lb Hlb) as (w' & Hrun & Hrest).
  by eexists _, w'.
Qed.

Lemma AmphoraUpdateVRRPInterface_execute_store_witness :
  exists r w',
    AmphoraUpdateVRRPInterface.execute (fun lb => lb) example_env
      {| loadbalancer_id := "lb-1" |} example_world = (Returned r, w') /\
    listener_tbl w' = listener_tbl example_world /\
    loadbalancer_tbl w' = loadbalancer_tbl example_world /\
    forall j,
      amphora_tbl w' !! j =
        (fun r => if allocated_of "lb-1" r
                  then vrrp_row example_env (Amphora.of_row j r) r else r)
          <$> amphora_tbl example_world !! j.
Proof.
  apply (AmphoraUpdateVRRPInterface_execute_store (fun lb => lb) example_env
           {| loadbalancer_id := "lb-1" |} example_world example_lb).
  vm_compute. reflexivity.
Defined.

Lemma lookup_loadbalancer_is_Some w w' i :
  loadbalancer_tbl w' = loadbalancer_tbl w ->
  is_Some (lookup_loadbalancer w i) -> is_Some (lookup_loadbalancer w' i).
Proof.
  unfold lookup_loadbalancer. intros ->.
  destruct (loadbalancer_tbl w !! i); simpl; [by eexists | by intros [? ?]].
Qed.

(** X9: [execute] followed by [revert] of [AmphoraUpdateVRRPInterface]: the
    revert moves no status, and afterwards an amphora for which [execute]
    discovered an interface has none, while every other amphora (not
    ALLOCATED, of another load balancer, or put in ERROR by [execute]) has
    the interface it had before [execute]. *)
Theorem AmphoraUpdateVRRPInterface_execute_revert {P}
    (to_dict : LoadBalancer.t -> P) env loadbalancer w lb :
  lookup_loadbalancer w (loadbalancer_id loadbalancer) = Some lb ->
  exists r w1 w2,
    AmphoraUpdateVRRPInterface.execute to_dict env loadbalancer w
      = (Returned r, w1) /\
    AmphoraUpdateVRRPInterface_revert (Result r) loadbalancer w1
      = (Returned tt, w2) /\
    (forall j, amphora_status w2 j = amphora_status w1 j) /\
    forall j,
      AmphoraRow.vrrp_interface <$> amphora_tbl w2 !! j =
        (fun r =>
           if allocated_of (loadbalancer_id loadbalancer) r &&
              negb (is_raised
                      (get_vrrp_interface (amphora_driver env)
                         (Amphora.of_row j r)
                         (AmphoraUpdateVRRPInterface.active_timeout_dict env)))
           then None else AmphoraRow.vrrp_interface r)
          <$> amphora_tbl w !! j.
Proof.
  intros Hlb.
  destruct (AmphoraUpdateVRRPInterface_execute_full to_dict env loadbalancer w
              lb Hlb) as (w1 & Hrun & _ & Hlbt & Hrows1).
  destruct (lookup_loadbalancer_is_Some w w1 (loadbalancer_id loadbalancer)
              Hlbt (mk_is_Some _ _ Hlb)) as [lb1 Hlb1].
  destruct (AmphoraUpdateVRRPInterface_revert_run
              (to_dict (LoadBalancer.set_amphorae
                 (vrrp_survivors env (LoadBalancer.amphorae lb)) lb))
              loadbalancer w1 lb1 Hlb1) as (w2 & Hrev & (_ & _ & Hrows2) & Hst).
  eexists _, w1, w2. split; [exact Hrun|]. split; [exact Hrev|].
  split; [exact Hst|]. intros j. rewrite Hrows2, Hrows1.
  destruct (amphora_tbl w !! j) as [r|]; [|reflexivity]. simpl. f_equal.
  destruct (allocated_of (loadbalancer_id loadbalancer) r) eqn:Halloc; simpl;
    [|by rewrite Halloc].
  unfold vrrp_row.
  destruct (get_vrrp_interface _ _ _) as [i|e]; cbn [is_raised negb andb fmap].
  - assert (Hkeep : allocated_of (loadbalancer_id loadbalancer)
                      (apply_change r (SetVrrpInterface i)) = true)
      by exact Halloc.
    by rewrite Hkeep.
  - by rewrite allocated_of_mark_error.
Qed.

Lemma AmphoraUpdateVRRPInterface_execute_revert_witness :
  exists r w1 w2,
    AmphoraUpdateVRRPInterface.execute (fun lb => lb) example_env
      {| loadbalancer_id := "lb-1" |} example_world = (Returned r, w1) /\
    AmphoraUpdateVRRPInterface_revert (Result r)
      {| loadbalancer_id := "lb-1" |} w1 = (Returned tt, w2) /\
    (forall j, amphora_status w2 j = amphora_status w1 j) /\
    forall j,
      AmphoraRow.vrrp_interface <$> amphora_tbl w2 !! j =
        (fun r =>
           if allocated_of "lb-1" r &&
              negb (is_raised
                      (get_vrrp_interface example_driver (Amphora.of_row j r)
                         (AmphoraUpdateVRRPInterface.active_timeout_dict
                            example_env)))
           then None else AmphoraRow.vrrp_interface r)
          <$> amphora_tbl example_world !! j.
Proof.
  apply (AmphoraUpdateVRRPInterface_execute_revert (fun lb => lb) example_env
           {| loadbalancer_id := "lb-1" |} example_world example_lb).
  vm_compute. reflexivity.
Defined.

(** ** Reverts of the single-target tasks, after a later task failed *)

Lemma alter_idem {V} (f : V -> V) (k : string) (m : gmap string V) :
  (forall r, f (f r) = f r) -> alter f k (alter f k m) = alter f k m.
Proof.
  intros Hidem. apply map_eq. intros j. rewrite !lookup_alter.
  repeat case_decide; try done. destruct (m !! k); simpl; by rewrite ?Hidem.
Qed.

(** X10: the reverts of listener delete, amphora finalize, post-network plug
    and post-VIP plug, run with a non-failure result, write ERROR whatever the
    status was, so a second run leaves every table as the first run left
    it. *)
Theorem single_target_reverts_idempotent {A} (a : A) amphora loadbalancer
    listener w :
  same_tables
    (snd (ListenerDelete.revert (Result a) listener w))
    (snd (ListenerDelete.revert (Result a) listener
            (snd (ListenerDelete.revert (Result a) listener w)))) /\
  same_tables
    (snd (AmphoraFinalize.revert (Result a) amphora w))
    (snd (AmphoraFinalize.revert (Result a) amphora
            (snd (AmphoraFinalize.revert (Result a) amphora w)))) /\
  same_tables
    (snd (AmphoraPostNetworkPlug.revert (Result a) amphora w))
    (snd (AmphoraPostNetworkPlug.revert (Result a) amphora
            (snd (AmphoraPostNetworkPlug.revert (Result a) amphora w)))) /\
  same_tables
    (snd (AmphoraPostVIPPlug.revert (Result a) amphora loadbalancer w))
    (snd (AmphoraPostVIPPlug.revert (Result a) amphora loadbalancer
            (snd (AmphoraPostVIPPlug.revert (Result a) amphora loadbalancer w)))).
Proof.
  unfold same_tables, ListenerDelete.revert, AmphoraFinalize.revert,
    AmphoraPostNetworkPlug.revert, AmphoraPostVIPPlug.revert.
  run_task. repeat split; rewrite ?alter_idem; done.
Qed.

(** X11: with a non-failure result [AmphoraPostVIPPlug.revert] puts both the
    amphora and the load balancer in ERROR and touches no other row;
    [AmphoraePostVIPPlug.revert] puts the load balancer in ERROR and leaves
    every amphora and listener as it is; handed the failure of its own
    [execute], [AmphoraePostVIPPlug.revert] does nothing. *)
Theorem post_vip_plug_reverts {A} (a : A) (f : failure.Failure) amphora
    loadbalancer w :
  (exists w',
      AmphoraPostVIPPlug.revert (Result a) amphora loadbalancer w
        = (Returned tt, w') /\
      amphora_status w' (Amphora.id amphora)
        = (fun _ => constants.ERROR) <$> amphora_status w (Amphora.id amphora) /\
      loadbalancer_status w' (loadbalancer_id loadbalancer)
        = (fun _ => constants.ERROR)
            <$> loadbalancer_status w (loadbalancer_id loadbalancer) /\
      (forall j, j <> Amphora.id amphora ->
                 amphora_tbl w' !! j = amphora_tbl w !! j) /\
      (forall j, j <> loadbalancer_id loadbalancer ->
                 loadbalancer_tbl w' !! j = loadbalancer_tbl w !! j) /\
      listener_tbl w' = listener_tbl w) /\
  (exists w',
      AmphoraePostVIPPlug.revert (Result a) loadbalancer w = (Returned tt, w') /\
      loadbalancer_status w' (loadbalancer_id loadbalancer)
        = (fun _ => constants.ERROR)
            <$> loadbalancer_status w (loadbalancer_id loadbalancer) /\
      (forall j, j <> loadbalancer_id loadbalancer ->
                 loadbalancer_tbl w' !! j = loadbalancer_tbl w !! j) /\
      amphora_tbl w' = amphora_tbl w /\
      listener_tbl w' = listener_tbl w) /\
  AmphoraePostVIPPlug.revert (Failed f : task_result A) loadbalancer w
    = (Returned tt, w).
Proof.
  unfold AmphoraPostVIPPlug.revert, AmphoraePostVIPPlug.revert,
    amphora_status, loadbalancer_status.
  run_task. repeat split.
  - eexists. split; [reflexivity|]. simpl. repeat split.
    + rewrite lookup_alter, decide_True by done.
      by destruct (amphora_tbl w !! _).
    + rewrite lookup_alter, decide_True by done.
      by destruct (loadbalancer_tbl w !! _).
    + intros j Hj. by rewrite lookup_alter_ne.
    + intros j Hj. by rewrite lookup_alter_ne.
  - eexists. split; [reflexivity|]. simpl. repeat split.
    + rewrite lookup_alter, decide_True by done.
      by destruct (loadbalancer_tbl w !! _).
    + intros j Hj. by rewrite lookup_alter_ne.
Qed.

(** ** ListenersUpdate.execute and the fail-fast executes *)

(** X12: [ListenersUpdate.execute] on a load balancer that is not in the
    store skips the update: whatever the driver would answer, it returns,
    changes no table and writes one error record to the log.  On a load
    balancer of the store it hands the fresh snapshot to the driver and ends
    as the driver's [update] ends. *)
Theorem ListenersUpdate_execute_spec driver lb_id w :
  (lookup_loadbalancer w lb_id = None ->
   exists w' msg,
     ListenersUpdate.execute driver lb_id w = (Returned tt, w') /\
     same_tables w w' /\
     trace w' = (trace w ++ [LoadBalancerGet lb_id;
                             Log LOG_ERROR msg [lb_id]])%list) /\
  (forall lb,
      lookup_loadbalancer w lb_id = Some lb ->
      ListenersUpdate.execute driver lb_id w
        = (AmphoraDriverOps.update driver lb, emit (LoadBalancerGet lb_id) w)).
Proof.
  unfold ListenersUpdate.execute. run_task. split.
  - intros ->. eexists _, _. split; [reflexivity|].
    split; [by repeat split|]. simpl. by rewrite <- app_assoc.
  - intros lb ->. reflexivity.
Qed.

Lemma ListenersUpdate_execute_spec_witness :
  (exists w' msg,
      ListenersUpdate.execute failing_ops "lb-404" example_world
        = (Returned tt, w') /\
      same_tables example_world w' /\
      trace w' = (trace example_world
                  ++ [LoadBalancerGet "lb-404";
                      Log LOG_ERROR msg ["lb-404"]])%list) /\
  ListenersUpdate.execute failing_ops "lb-1" example_world
    = (Raised (Exn OtherException "unreachable"),
       emit (LoadBalancerGet "lb-1") example_world).
Proof.
  split.
  - apply (proj1 (ListenersUpdate_execute_spec failing_ops "lb-404"
                    example_world)).
    vm_compute. reflexivity.
  - apply (proj2 (ListenersUpdate_execute_spec failing_ops "lb-1"
                    example_world) example_lb).
    vm_compute. reflexivity.
Defined.

(** X13: the executes of listener delete, amphora finalize, VRRP stop and
    VRRP start are fail-fast: each hands the driver the snapshot it has just
    read from the store ([None] when the row is missing), ends exactly as the
    driver's call ends, so an exception of the driver is never swallowed, and
    writes to no table. *)
Theorem fail_fast_executes driver listener amphora loadbalancer w :
  (fst (ListenerDelete_execute driver listener w)
     = AmphoraDriverOps.delete driver
         (Listener.of_row (listener_id listener)
            <$> listener_tbl w !! listener_id listener) /\
   same_tables w (snd (ListenerDelete_execute driver listener w))) /\
  (fst (AmphoraFinalize_execute driver amphora w)
     = AmphoraDriverOps.finalize_amphora driver
         (lookup_amphora w (Amphora.id amphora)) /\
   same_tables w (snd (AmphoraFinalize_execute driver amphora w))) /\
  (fst (AmphoraVRRPStop.execute driver loadbalancer w)
     = AmphoraDriverOps.stop_vrrp_service driver
         (lookup_loadbalancer w (loadbalancer_id loadbalancer)) /\
   same_tables w (snd (AmphoraVRRPStop.execute driver loadbalancer w))) /\
  (fst (AmphoraVRRPStart.execute driver loadbalancer w)
     = AmphoraDriverOps.start_vrrp_service driver
         (lookup_loadbalancer w (loadbalancer_id loadbalancer)) /\
   same_tables w (snd (AmphoraVRRPStart.execute driver loadbalancer w))).
Proof.
  unfold ListenerDelete_execute, AmphoraFinalize_execute,
    AmphoraVRRPStop.execute, AmphoraVRRPStart.execute, answer.
  run_task. repeat apply conj.
  - by destruct (AmphoraDriverOps.delete _ _) as [[]|].
  - by destruct (AmphoraDriverOps.delete _ _).
  - by destruct (AmphoraDriverOps.delete _ _).
  - by destruct (AmphoraDriverOps.delete _ _).
  - by destruct (AmphoraDriverOps.finalize_amphora _ _) as [[]|].
  - by destruct (AmphoraDriverOps.finalize_amphora _ _).
  - by destruct (AmphoraDriverOps.finalize_amphora _ _).
  - by destruct (AmphoraDriverOps.finalize_amphora _ _).
  - by destruct (AmphoraDriverOps.stop_vrrp_service _ _) as [[]|].
  - by destruct (AmphoraDriverOps.stop_vrrp_service _ _).
  - by destruct (AmphoraDriverOps.stop_vrrp_service _ _).
  - by destruct (AmphoraDriverOps.stop_vrrp_service _ _).
  - by destruct (AmphoraDriverOps.start_vrrp_service _ _) as [[]|].
  - by destruct (AmphoraDriverOps.start_vrrp_service _ _).
  - by destruct (AmphoraDriverOps.start_vrrp_service _ _).
  - by destruct (AmphoraDriverOps.start_vrrp_service _ _).
Qed.

(** ** More on the tasks of the claims *)

Lemma isinstance_false e c : exn_cls e <> c -> isinstance e c = false.
Proof. intros H. unfold isinstance. by apply bool_decide_eq_false. Qed.

(** X14: [AmphoraComputeConnectivityWait.execute] marks the amphora only on
    a timeout: any other exception of [get_info] (an [AmpConnectionRetry]
    asked for through [raise_retry_exception], for one) passes through as it
    is, no table changes and no update is issued. *)
Theorem ComputeConnectivityWait_execute_other_exception env amphora
    raise_retry_exception w e :
  get_info (amphora_driver env) (lookup_amphora w (Amphora.id amphora))
           raise_retry_exception = Raised e ->
  exn_cls e <> TimeOutException ->
  exists w',
    AmphoraComputeConnectivityWait.execute env amphora raise_retry_exception w
      = (Raised e, w') /\
    same_tables w w' /\
    trace w' =
      (trace w ++
       [AmphoraGet (Amphora.id amphora);
        DriverCall (GetInfo (lookup_amphora w (Amphora.id amphora))
                            raise_retry_exception)])%list.
Proof.
  intros Hdrv Hcls. unfold AmphoraComputeConnectivityWait.execute.
  run_task. rewrite Hdrv, (isinstance_false _ _ Hcls). simpl.
  eexists. split; [reflexivity|]. split; [by repeat split|].
  simpl. by rewrite <- app_assoc.
Qed.

Lemma ComputeConnectivityWait_execute_other_exception_witness :
  exists w',
    AmphoraComputeConnectivityWait.execute
      {| CONF := example_conf;
         amphora_driver :=
           {| update_amphora_listeners _ _ _ := Returned tt;
              start _ _ := Returned tt;
              get_info _ retry :=
                if retry then Raised (Exn AmpConnectionRetry "Connection retries")
                else Returned "{}";
              get_vrrp_interface _ _ := Returned None;
              update_amphora_agent_config _ _ := Returned tt |};
         build_agent_config _ topology := topology |}
      amp1 true example_world
      = (Raised (Exn AmpConnectionRetry "Connection retries"), w') /\
    same_tables example_world w' /\
    trace w' =
      (trace example_world ++
       [AmphoraGet "amp-1";
        DriverCall (GetInfo (lookup_amphora example_world "amp-1") true)])%list.
Proof.
  apply ComputeConnectivityWait_execute_other_exception.
  - reflexivity.
  - discriminate.
Defined.

(** X15: the topology [AmphoraConfigUpdate.execute] builds the agent
    configuration with is the value the flavor holds under
    "loadbalancer_topology", whatever that value and whatever else the flavor
    holds, and the configured default when the flavor is [None], is empty or
    lacks the key; the driver is handed the store's snapshot of the amphora
    and the configuration built for that topology. *)
Theorem AmphoraConfigUpdate_execute_chosen_topology env amphora flavor w :
  exists r w' rest,
    AmphoraConfigUpdate.execute env amphora flavor w = (r, w') /\
    trace w' =
      (trace w ++
       [AmphoraGet (Amphora.id amphora);
        DriverCall
          (UpdateAmphoraAgentConfig (lookup_amphora w (Amphora.id amphora))
             (build_agent_config env (Amphora.id amphora)
                (chosen_topology (CONF env) flavor)))] ++
       rest)%list.
Proof.
  assert (Htop : AmphoraConfigUpdate.topology_for env flavor
                 = chosen_topology (CONF env) flavor).
  { unfold AmphoraConfigUpdate.topology_for, chosen_topology,
      constants.LOADBALANCER_TOPOLOGY.
    destruct flavor as [f|]; [|reflexivity].
    case_bool_decide as Hempty.
    - subst f. by rewrite lookup_empty.
    - by destruct (f !! "loadbalancer_topology"). }
  rewrite <- Htop. unfold AmphoraConfigUpdate.execute. run_task.
  destruct (update_amphora_agent_config _ _ _) as [[]|e].
  - eexists _, _, []. split; [reflexivity|]. simpl. by rewrite <- app_assoc.
  - destruct (isinstance e AmpDriverNotImplementedError).
    + eexists _, _, [_]. split; [reflexivity|]. simpl.
      by rewrite <- !app_assoc.
    + eexists _, _, []. split; [reflexivity|]. simpl. by rewrite <- app_assoc.
Qed.

(** X16: [AmphoraConfigUpdate.execute] never writes to the store, and of
    the exceptions of [update_amphora_agent_config] it swallows
    [AmpDriverNotImplementedError] only: any other exception comes out as it
    is. *)
Theorem AmphoraConfigUpdate_execute_outcome env amphora flavor w :
  same_tables w (snd (AmphoraConfigUpdate.execute env amphora flavor w)) /\
  fst (AmphoraConfigUpdate.execute env amphora flavor w) =
    match update_amphora_agent_config (amphora_driver env)
            (lookup_amphora w (Amphora.id amphora))
            (build_agent_config env (Amphora.id amphora)
               (AmphoraConfigUpdate.topology_for env flavor)) with
    | Returned _ => Returned tt
    | Raised e =>
        if bool_decide (exn_cls e = AmpDriverNotImplementedError)
        then Returned tt else Raised e
    end.
Proof.
  unfold AmphoraConfigUpdate.execute. run_task.
  destruct (update_amphora_agent_config _ _ _) as [[]|e]; simpl.
  - by repeat split.
  - unfold isinstance. by case_bool_decide.
Qed.

(** X17: [AmpListenersUpdate.execute], with [amphora_index] naming the
    amphora [amp], writes to one row at most: listeners, load balancers and
    every amphora other than [amp] are as before, and when the driver call
    answers the row of [amp] is as before too.  A negative [amphora_index]
    counts from the end of [amphorae]. *)
Theorem AmpListenersUpdate_execute_frame env loadbalancer amphora_index amphorae
    timeout_dict w amp :
  py_index amphorae amphora_index = Some amp ->
  exists w',
    AmpListenersUpdate.execute env loadbalancer amphora_index amphorae
      timeout_dict w = (Returned tt, w') /\
    listener_tbl w' = listener_tbl w /\
    loadbalancer_tbl w' = loadbalancer_tbl w /\
    (forall j, j <> Amphora.id amp -> amphora_tbl w' !! j = amphora_tbl w !! j) /\
    (is_raised
       (update_amphora_listeners (amphora_driver env)
          (lookup_loadbalancer w (loadbalancer_id loadbalancer))
          (lookup_amphora w (Amphora.id amp)) timeout_dict) = false ->
     amphora_tbl w' = amphora_tbl w).
Proof.
  intros Hidx.
  destruct (AmpListenersUpdate_execute_run env loadbalancer amphora_index
              amphorae timeout_dict w amp Hidx) as [tr Hrun].
  eexists. split; [exact Hrun|]. simpl. repeat split.
  - intros j Hj. destruct (is_raised _); [|reflexivity].
    by rewrite lookup_alter_ne.
  - by intros ->.
Qed.

Lemma AmpListenersUpdate_execute_frame_witness :
  exists w',
    AmpListenersUpdate.execute example_env {| loadbalancer_id := "lb-1" |} (-1)
      [amp1; amp2] None example_world = (Returned tt, w') /\
    listener_tbl w' = listener_tbl example_world /\
    loadbalancer_tbl w' = loadbalancer_tbl example_world /\
    (forall j, j <> "amp-2" ->
               amphora_tbl w' !! j = amphora_tbl example_world !! j) /\
    (is_raised
       (update_amphora_listeners example_driver
          (lookup_loadbalancer example_world "lb-1")
          (lookup_amphora example_world "amp-2") None) = false ->
     amphora_tbl w' = amphora_tbl example_world).
Proof.
  apply (AmpListenersUpdate_execute_frame example_env
           {| loadbalancer_id := "lb-1" |} (-1) [amp1; amp2] None
           example_world amp2).
  reflexivity.
Defined.

(** X18: on a load balancer with listeners [ListenersStart.execute] calls
    [start] once, with the snapshot of the load balancer and the amphora as
    the store has it ([None] when no amphora is given, in which case no
    amphora is looked up), ends as that call ends, and changes no table. *)
Theorem ListenersStart_execute_with_listeners env loadbalancer amphora w lb :
  lookup_loadbalancer w (loadbalancer_id loadbalancer) = Some lb ->
  LoadBalancer.listeners lb <> [] ->
  exists w' logged,
    ListenersStart.execute env loadbalancer amphora w
      = (start (amphora_driver env) lb
           (amphora ≫= fun a => lookup_amphora w (Amphora.id a)), w') /\
    same_tables w w' /\
    trace w' =
      (trace w ++
       [LoadBalancerGet (loadbalancer_id loadbalancer)] ++
       match amphora with
       | Some a => [AmphoraGet (Amphora.id a)]
       | None => []
       end ++
       [DriverCall
          (Start lb (amphora ≫= fun a => lookup_amphora w (Amphora.id a)))] ++
       logged)%list /\
    Forall (fun ev => is_driver_call ev = false /\ is_amphora_get ev = false)
           logged.
Proof.
  intros Hlb Hls. unfold ListenersStart.execute. run_task. rewrite Hlb. simpl.
  destruct (LoadBalancer.listeners lb) as [|l ls]; [done|]. simpl.
  destruct amphora as [a|]; simpl;
    destruct (start (amphora_driver env) lb _) as [[]|e]; simpl;
    eexists _, _; (split; [reflexivity|]); (split; [by repeat split|]); simpl;
    rewrite <- ?app_assoc; simpl;
    (split; [reflexivity|]).
  all: try by repeat constructor.
Qed.

Lemma ListenersStart_execute_with_listeners_witness :
  exists w' logged,
    ListenersStart.execute example_env {| loadbalancer_id := "lb-1" |} None
      example_world = (start example_driver example_lb None, w') /\
    same_tables example_world w' /\
    trace w' =
      (trace example_world ++
       [LoadBalancerGet "lb-1"] ++ [] ++
       [DriverCall (Start example_lb None)] ++ logged)%list /\
    Forall (fun ev => is_driver_call ev = false /\ is_amphora_get ev = false)
           logged.
Proof.
  apply (ListenersStart_execute_with_listeners example_env
           {| loadbalancer_id := "lb-1" |} None example_world example_lb).
  - vm_compute. reflexivity.
  - discriminate.
Defined.
